(** * gpt-cli: command dispatch and session persistence

    A shallow embedding of [src/lib/command.ts], [src/lib/session.ts] and
    [src/lib/model.ts], followed by the properties of the command
    classifier, the dispatcher, the session store and the model table.

    Conventions of the embedding.
    - A JavaScript string is a [string]: one [ascii] per code unit, which
      covers the code units 0..255.
    - An [async] function is a computation in the monad [M] below: it
      threads the [World] (session directory, clock, terminal, settings of
      the command line) and ends by returning, by throwing or by leaving
      the process.
    - [JSON.stringify] followed by [JSON.parse] is the identity on the
      records the store writes, so a session file holds either such a
      record or text that [JSON.parse] rejects. *)

From Stdlib Require Import ZArith QArith Ascii String List Bool Lia.
From stdpp Require Import base tactics option list strings pretty.

Local Open Scope Z_scope.

(* ===================================================================== *)
(** * Part I: definitions *)
(* ===================================================================== *)

(** ** JavaScript string primitives used by the sources *)

Module Js.

(** White space and line terminators among the code units 0..255: the
    characters matched by [\s] and stripped by [String.prototype.trim]. *)
Definition isWhitespace (c : ascii) : bool :=
  match c with
  | "009" | "010" | "011" | "012" | "013" | " " | "160" => true
  | _ => false
  end%char.

Fixpoint trimStart (s : string) : string :=
  match s with
  | EmptyString => EmptyString
  | String c s' => if isWhitespace c then trimStart s' else s
  end.

Fixpoint trimEnd (s : string) : string :=
  match s with
  | EmptyString => EmptyString
  | String c s' =>
      match trimEnd s' with
      | EmptyString => if isWhitespace c then EmptyString else String c EmptyString
      | t => String c t
      end
  end.

(** [s.trim()] *)
Definition trim (s : string) : string := trimEnd (trimStart s).

(** [s.split(/[\s\n\t]+/)]: [tok] is the piece being read, [inRun] tells
    that the previous code unit belonged to a separator. *)
Fixpoint splitGo (tok : string) (inRun : bool) (s : string) : list string :=
  match s with
  | EmptyString => [tok]
  | String c s' =>
      if isWhitespace c
      then (if inRun then splitGo "" true s' else tok :: splitGo "" true s')
      else splitGo (tok +:+ String c "") false s'
  end.

Definition splitWhitespace (s : string) : list string := splitGo "" false s.

(** [s.startsWith(p)] *)
Fixpoint startsWith (p s : string) : bool :=
  match p, s with
  | EmptyString, _ => true
  | String a p', String b s' => if Ascii.eqb a b then startsWith p' s' else false
  | String _ _, EmptyString => false
  end.

(** [s.slice(n)] and [s.substring(n)] for [0 <= n]. *)
Fixpoint drop (n : nat) (s : string) : string :=
  match n, s with
  | O, _ => s
  | S n', String _ s' => drop n' s'
  | S _, EmptyString => EmptyString
  end.

Fixpoint reverse (s : string) : string :=
  match s with
  | EmptyString => EmptyString
  | String c s' => reverse s' +:+ String c ""
  end.

(** [s.endsWith(p)] *)
Definition endsWith (p s : string) : bool := startsWith (reverse p) (reverse s).

(** The longest prefix without white space: what [[^\s\n\t]+] consumes. *)
Fixpoint takeNonSpace (s : string) : string :=
  match s with
  | EmptyString => EmptyString
  | String c s' => if isWhitespace c then EmptyString else String c (takeNonSpace s')
  end.

(** [s.replace(/[:.]/g, "-")] *)
Fixpoint replaceColonDot (s : string) : string :=
  match s with
  | EmptyString => EmptyString
  | String c s' =>
      String (if (Ascii.eqb c ":" || Ascii.eqb c ".")%bool then "-"%char else c)
             (replaceColonDot s')
  end.

(** [parts.join(sep)] *)
Fixpoint join (sep : string) (parts : list string) : string :=
  match parts with
  | [] => ""
  | [p] => p
  | p :: rest => p +:+ sep +:+ join sep rest
  end.

(** Truthiness of a string. *)
Definition truthy (s : string) : bool :=
  match s with EmptyString => false | _ => true end.

End Js.

(** ** Messages *)

(** An instance of a LangChain message class.  [OtherMessage] stands for
    an instance of any other subclass of [BaseMessage]; [type] is what its
    [_getType()] returns. *)
Inductive BaseMessage : Type :=
| SystemMessage (content : string)
| HumanMessage (content : string)
| AIMessage (content : string)
| OtherMessage (type : string) (content : string).

(** One message as the session files hold it. *)
Record StoredMessage : Type := mkStored { stType : string; stContent : string }.

(** What an element of a [BaseMessage[]] array is at run time: an instance
    of a message class, or a plain object that came out of [JSON.parse] and
    was never rebuilt into one. *)
Inductive Entry : Type :=
| Inst (m : BaseMessage)
| Plain (r : StoredMessage).

Abbreviation History := (list Entry).

(** [m._getType()] *)
Definition _getType (m : BaseMessage) : string :=
  match m with
  | SystemMessage _ => "system"
  | HumanMessage _ => "human"
  | AIMessage _ => "ai"
  | OtherMessage t _ => t
  end.

Definition content (m : BaseMessage) : string :=
  match m with
  | SystemMessage c | HumanMessage c | AIMessage c | OtherMessage _ c => c
  end.

(** [e.content] *)
Definition entryContent (e : Entry) : string :=
  match e with
  | Inst m => content m
  | Plain r => stContent r
  end.

(** [e instanceof SystemMessage], [e instanceof HumanMessage],
    [e instanceof AIMessage] *)
Definition isSystemMessage (e : Entry) : bool :=
  match e with Inst (SystemMessage _) => true | _ => false end.
Definition isHumanMessage (e : Entry) : bool :=
  match e with Inst (HumanMessage _) => true | _ => false end.
Definition isAIMessage (e : Entry) : bool :=
  match e with Inst (AIMessage _) => true | _ => false end.

(** ** Errors and outcomes *)

Inductive Error : Type :=
| InvalidCommand (token : string)       (* [new Error(`Invalid command. ${input0}`)] *)
| TypeError (what : string)             (* a call on something that is no function *)
| SyntaxError (text : string)           (* [JSON.parse] on text that is no JSON *)
| IoError (operation path : string).    (* a failed [Deno] file operation *)

(** ** Command classifier ([command.ts]) *)

Inductive Command : Type :=
| Help | Clear | ModelStack | Bye | File | Save | Load | Sessions | Delete
| ResumeLatest.

(** [Command | { command: Command; path: string }] *)
Inductive CommandInput : Type :=
| Bare (c : Command)
| WithPath (command : Command) (path : string).

Definition commandOf (ci : CommandInput) : Command :=
  match ci with Bare c => c | WithPath c _ => c end.

(** The own properties of the object literal [commandMap]. *)
Definition commandMap : list (string * Command) :=
  [ ("/help", Help); ("/?", Help); ("/clear", Clear);
    ("/modelStack", ModelStack); ("/bye", Bye); ("/exit", Bye);
    ("/quit", Bye); ("/file", File); ("/save", Save); ("/load", Load);
    ("/sessions", Sessions); ("/delete", Delete);
    ("/resume-latest", ResumeLatest) ].

(** [commandMap] is an object literal, so a property read that finds no own
    property goes on to [Object.prototype].  These are the members found
    there (Deno removes [__proto__]); each of them is a function. *)
Definition objectPrototype : list string :=
  [ "constructor"; "hasOwnProperty"; "isPrototypeOf"; "propertyIsEnumerable";
    "toLocaleString"; "toString"; "valueOf"; "__defineGetter__";
    "__defineSetter__"; "__lookupGetter__"; "__lookupSetter__" ].

Fixpoint assoc {A : Type} (key : string) (table : list (string * A)) : option A :=
  match table with
  | [] => None
  | (k, v) :: rest => if String.eqb k key then Some v else assoc key rest
  end.

Fixpoint memberOf (key : string) (names : list string) : bool :=
  match names with
  | [] => false
  | n :: rest => if String.eqb n key then true else memberOf key rest
  end.

(** The value of [commandMap[key]]. *)
Inductive Property : Type :=
| OwnCommand (c : Command)
| Inherited (name : string)
| Undefined.

Definition getProperty (key : string) : Property :=
  match assoc key commandMap with
  | Some c => OwnCommand c
  | None => if memberOf key objectPrototype then Inherited key else Undefined
  end.

(** What [newSlashCommand] hands back: a command, a command with its
    argument, or -- for a key found on the prototype -- that member. *)
Inductive Classified : Type :=
| IsCommand (ci : CommandInput)
| IsInherited (name : string).

(** [[File, Save, Load, Delete].includes(command)] *)
Definition takesPath (c : Command) : bool :=
  match c with File | Save | Load | Delete => true | _ => false end.

(** [inputParts[0]] *)
Definition input0 (input : string) : option string :=
  Js.splitWhitespace (Js.trim input) !! 0%nat.

Definition newSlashCommand (input : string) : Error + Classified :=
  let inputParts := Js.splitWhitespace (Js.trim input) in
  match inputParts !! 0%nat with
  | None => inl (InvalidCommand "undefined")
  | Some input0 =>
      match getProperty input0 with
      | Undefined => inl (InvalidCommand input0)
      | Inherited name => inr (IsInherited name)
      | OwnCommand command =>
          if takesPath command && (1 <? Z.of_nat (length inputParts))
          then match inputParts !! 1%nat with
               | Some path => inr (IsCommand (WithPath command path))
               | None => inr (IsCommand (Bare command))
               end
          else inr (IsCommand (Bare command))
      end
  end.

(** ** At-mentions ([command.ts]) *)

Record ModelMessage : Type := mkModelMessage { mmModel : string; mmMessage : string }.

(** [input.match(/^@[^\s\n\t]+/)]: the matched text, when there is one. *)
Definition matchAtModel (input : string) : option string :=
  match input with
  | String "@" rest =>
      match Js.takeNonSpace rest with
      | EmptyString => None
      | run => Some (String "@" run)
      end
  | _ => None
  end.

Definition extractAtModel (input : string) : ModelMessage :=
  match matchAtModel input with
  | Some m0 =>
      {| mmModel := Js.drop 1 m0;
         mmMessage := Js.trim (Js.drop (String.length m0) input) |}
  | None => {| mmModel := ""; mmMessage := input |}
  end.

Definition isAtCommand (humanMessage : Entry) : bool :=
  if negb (isHumanMessage humanMessage) then false
  else
    let content := entryContent humanMessage in
    if negb (Js.truthy content) then false
    else Js.startsWith "@" content.

(** [messages[i]] for an index computed as a number. *)
Definition at_ {A : Type} (l : list A) (i : Z) : option A :=
  if i <? 0 then None else l !! Z.to_nat i.

Definition getMessageFromHistory (messages : History) (index : Z) : option string :=
  if Z.abs index <? Z.of_nat (length messages)
  then entryContent <$> at_ messages (Z.of_nat (length messages) + index)
  else None.

(** [a || b] on strings that may be [null] or [undefined]. *)
Definition orElse (a : option string) (b : option string) : option string :=
  match a with
  | Some s => if Js.truthy s then a else b
  | None => b
  end.

Definition handleAtCommand (humanMessage : Entry) (messages : History)
    (model : string) : ModelMessage :=
  if negb (isAtCommand humanMessage)
  then {| mmMessage := entryContent humanMessage; mmModel := model |}
  else
    let extracted := extractAtModel (entryContent humanMessage) in
    let newMessage :=
      default "" (orElse (orElse (Some (mmMessage extracted))
                                 (getMessageFromHistory messages (-2)))
                         (Some "")) in
    {| mmMessage := newMessage;
       mmModel := default "" (orElse (Some (mmModel extracted)) (Some model)) |}.

(** ** The world around the dispatcher *)

(** A [Date]: what [getTime()] and [toISOString()] give. *)
Record Instant : Type := mkInstant { ms : Z; iso : string }.

(** The object a session file holds. *)
Record SessionRecord : Type := mkRecord {
  srModel : string;
  srMessages : list StoredMessage;
  srTimestamp : string
}.

(** The text of a file: [JSON.stringify] of a session record, or text that
    [JSON.parse] rejects. *)
Inductive FileText : Type :=
| SessionJson (r : SessionRecord)
| NotJson (raw : string).

(** An entry of the session directory.  [mtime] is [stat.mtime]: a time in
    milliseconds, or [None] where the platform gives [null].  Sub-directories
    and links are [NotAFile]; the model does not look inside them. *)
Inductive Node : Type :=
| RegularFile (mtime : option Z) (text : FileText)
| NotAFile.

(** What the file loader ([file.ts]) answers for one path: a code block
    with its [content] and its [toString()], or a failure. *)
Inductive ParseResult : Type :=
| CodeBlock (blockContent rendered : string)
| ParseFailure (e : Error).

(** What [filesGenerator([pattern])] yields, and the error it ends with when
    the enumeration itself fails. *)
Record Glob : Type := mkGlob {
  found : list (string * ParseResult);
  failure : option Error
}.

(** What reaches the terminal, one constructor per message of the sources. *)
Inductive Notice : Type :=
| Attaching (pattern : string)
| Attached (filePath : string)
| FileError (filePath : string) (e : Error)
| AttachedCount (fileCount : nat)
| NoFilesFound (pattern : string)
| PatternError (pattern : string) (e : Error)
| SessionSaved (name : string)
| SessionLoaded (name model : string)
| SessionDeleted (name : string)
| CommandMessage
| ContextClear
| ModelStackShown (models : string)
| SessionsShown (names : list string)
| ResumedWithModel (model : string)
| NoSessionToResume
| ResumedFile (filePath : string)
| NoSessionFiles
| ResumeFailed (e : Error)
| AutoSaveFailed (e : Error).

Record World : Type := mkWorld {
  home : option string;                     (* [Deno.env.get("HOME")] *)
  sessionDir : option (list (string * Node)); (* entries in enumeration order;
                                               [None]: no such directory *)
  writable : bool;                          (* can directories and files be written *)
  clock : nat -> Instant;                   (* the successive readings of the clock *)
  ticks : nat;                              (* readings taken so far *)
  defaultModel : string;                    (* [getInstance().params.model] *)
  modelStack : list string;                 (* a [Set], in insertion order *)
  loader : string -> Glob;                  (* the file loader *)
  terminal : list Notice                    (* everything printed so far *)
}.

Definition setSessionDir (d : option (list (string * Node))) (w : World) : World :=
  mkWorld (home w) d (writable w) (clock w) (ticks w) (defaultModel w)
          (modelStack w) (loader w) (terminal w).
Definition setTicks (n : nat) (w : World) : World :=
  mkWorld (home w) (sessionDir w) (writable w) (clock w) n (defaultModel w)
          (modelStack w) (loader w) (terminal w).
Definition setDefaultModel (m : string) (w : World) : World :=
  mkWorld (home w) (sessionDir w) (writable w) (clock w) (ticks w) m
          (modelStack w) (loader w) (terminal w).
Definition setModelStack (s : list string) (w : World) : World :=
  mkWorld (home w) (sessionDir w) (writable w) (clock w) (ticks w) (defaultModel w)
          s (loader w) (terminal w).
Definition setTerminal (t : list Notice) (w : World) : World :=
  mkWorld (home w) (sessionDir w) (writable w) (clock w) (ticks w) (defaultModel w)
          (modelStack w) (loader w) t.

(** ** Computations: return, throw, or leave the process *)

Inductive Outcome (A : Type) : Type :=
| Returned (a : A)
| Thrown (e : Error)
| Exited (code : Z).
Arguments Returned {A} a.
Arguments Thrown {A} e.
Arguments Exited {A} code.

Definition M (A : Type) : Type := World -> Outcome A * World.

Definition ret {A : Type} (a : A) : M A := fun w => (Returned a, w).
Definition throw {A : Type} (e : Error) : M A := fun w => (Thrown e, w).
Definition exit {A : Type} (code : Z) : M A := fun w => (Exited code, w).

Definition bind {A B : Type} (c : M A) (k : A -> M B) : M B :=
  fun w =>
    match c w with
    | (Returned a, w') => k a w'
    | (Thrown e, w') => (Thrown e, w')
    | (Exited code, w') => (Exited code, w')
    end.

(** [try { c } catch (error) { handler(error) }] *)
Definition tryCatch {A : Type} (c : M A) (handler : Error -> M A) : M A :=
  fun w =>
    match c w with
    | (Thrown e, w') => handler e w'
    | r => r
    end.

Notation "'let*' x ':=' c 'in' k" := (bind c (fun x => k))
  (at level 10, x name, c at level 100, k at level 200).

Definition gets {A : Type} (f : World -> A) : M A := fun w => (Returned (f w), w).
Definition modify (f : World -> World) : M unit := fun w => (Returned tt, f w).

(** [console.log], [console.warn], [console.error], [printGray], ... *)
Definition print (n : Notice) : M unit :=
  modify (fun w => setTerminal (terminal w ++ [n]) w).

(** [new Date()] *)
Definition newDate : M Instant :=
  fun w => (Returned (clock w (ticks w)), setTicks (S (ticks w)) w).

(** [for (const x of xs) { body(x) }], the loop variables being [acc]. *)
Fixpoint forEach {A S : Type} (xs : list A) (body : S -> A -> M S) (acc : S) : M S :=
  match xs with
  | [] => ret acc
  | x :: rest => let* acc' := body acc x in forEach rest body acc'
  end.

(** [xs.map(f)] where [f] may throw. *)
Fixpoint mapM {A B : Type} (f : A -> M B) (xs : list A) : M (list B) :=
  match xs with
  | [] => ret []
  | x :: rest => let* y := f x in let* ys := mapM f rest in ret (y :: ys)
  end.

(** ** The session directory as [Deno] sees it *)

Definition newline : string := String "010" "".

(** [SESSION_DIR]; an unset [HOME] prints as [undefined]. *)
Definition SESSION_DIR (w : World) : string :=
  default "undefined" (home w) +:+ "/.gpt-cli/sessions".

(** [`${name}.json`]: the path [`${SESSION_DIR}/${name}.json`] relative to
    [SESSION_DIR]. *)
Definition fileOf (name : string) : string := name +:+ ".json".

Fixpoint hasSlash (s : string) : bool :=
  match s with
  | EmptyString => false
  | String c s' => if Ascii.eqb c "/" then true else hasSlash s'
  end.

Fixpoint putEntry (n : string) (node : Node) (d : list (string * Node))
    : list (string * Node) :=
  match d with
  | [] => [(n, node)]
  | (k, v) :: rest =>
      if String.eqb k n then (k, node) :: rest else (k, v) :: putEntry n node rest
  end.

Fixpoint removeEntry (n : string) (d : list (string * Node)) : list (string * Node) :=
  match d with
  | [] => []
  | (k, v) :: rest => if String.eqb k n then rest else (k, v) :: removeEntry n rest
  end.

Definition isFile (node : Node) : bool :=
  match node with RegularFile _ _ => true | NotAFile => false end.

(** [ensureDir(SESSION_DIR)] *)
Definition ensureDir : M unit := fun w =>
  match sessionDir w with
  | Some _ => (Returned tt, w)
  | None =>
      if writable w then (Returned tt, setSessionDir (Some []) w)
      else (Thrown (IoError "ensureDir" (SESSION_DIR w)), w)
  end.

(** [Deno.writeTextFile(`${SESSION_DIR}/${file}`, text)].  A [file] with a
    path separator lies outside the modelled directory and is refused. *)
Definition writeTextFile (file : string) (text : FileText) : M unit := fun w =>
  let failed := (Thrown (IoError "writeTextFile" (SESSION_DIR w +:+ "/" +:+ file)), w) in
  match sessionDir w with
  | None => failed
  | Some d =>
      if negb (writable w) || hasSlash file then failed
      else match assoc file d with
           | Some NotAFile => failed
           | _ =>
               let now := clock w (ticks w) in
               (Returned tt,
                setTicks (S (ticks w))
                  (setSessionDir (Some (putEntry file (RegularFile (Some (ms now)) text) d)) w))
           end
  end.

(** [Deno.readTextFile(`${SESSION_DIR}/${file}`)]; a regular file of the
    directory can be read. *)
Definition readTextFile (file : string) : M FileText := fun w =>
  match sessionDir w with
  | Some d =>
      match assoc file d with
      | Some (RegularFile _ text) => (Returned text, w)
      | _ => (Thrown (IoError "readTextFile" (SESSION_DIR w +:+ "/" +:+ file)), w)
      end
  | None => (Thrown (IoError "readTextFile" (SESSION_DIR w +:+ "/" +:+ file)), w)
  end.

(** [Deno.remove(`${SESSION_DIR}/${file}`)] *)
Definition remove (file : string) : M unit := fun w =>
  match sessionDir w with
  | Some d =>
      match assoc file d with
      | Some (RegularFile _ _) =>
          if writable w then (Returned tt, setSessionDir (Some (removeEntry file d)) w)
          else (Thrown (IoError "remove" (SESSION_DIR w +:+ "/" +:+ file)), w)
      | _ => (Thrown (IoError "remove" (SESSION_DIR w +:+ "/" +:+ file)), w)
      end
  | None => (Thrown (IoError "remove" (SESSION_DIR w +:+ "/" +:+ file)), w)
  end.

(** [Deno.readDir(SESSION_DIR)], all entries at once. *)
Definition readDir : M (list (string * Node)) := fun w =>
  match sessionDir w with
  | Some d => (Returned d, w)
  | None => (Thrown (IoError "readDir" (SESSION_DIR w)), w)
  end.

(** [(await Deno.stat(`${SESSION_DIR}/${file}`)).mtime] *)
Definition statMtime (file : string) : M (option Z) := fun w =>
  match sessionDir w with
  | Some d =>
      match assoc file d with
      | Some (RegularFile mtime _) => (Returned mtime, w)
      | _ => (Thrown (IoError "stat" (SESSION_DIR w +:+ "/" +:+ file)), w)
      end
  | None => (Thrown (IoError "stat" (SESSION_DIR w +:+ "/" +:+ file)), w)
  end.

(** [JSON.parse(text)] *)
Definition JSON_parse (text : FileText) : M SessionRecord :=
  match text with
  | SessionJson r => ret r
  | NotJson raw => throw (SyntaxError raw)
  end.

(** Truthiness of the text of a file. *)
Definition textTruthy (text : FileText) : bool :=
  match text with
  | SessionJson _ => true
  | NotJson raw => Js.truthy raw
  end.

(** ** Session store ([session.ts]) *)

(** [m => ({ type: m._getType(), content: m.content })]; a plain object has
    no [_getType]. *)
Definition storeTyped (e : Entry) : M StoredMessage :=
  match e with
  | Inst m => ret (mkStored (_getType m) (content m))
  | Plain _ => throw (TypeError "m._getType is not a function")
  end.

Definition saveSession (name : string) (messages : History) (model : string) : M unit :=
  let* _ := ensureDir in
  let* stored := mapM storeTyped messages in
  let* now := newDate in
  writeTextFile (fileOf name) (SessionJson (mkRecord model stored (iso now))).

(** The [switch (m.type)] of [loadSession]. *)
Definition revive (m : StoredMessage) : BaseMessage :=
  if String.eqb (stType m) "system" then SystemMessage (stContent m)
  else if String.eqb (stType m) "human" then HumanMessage (stContent m)
  else if String.eqb (stType m) "ai" then AIMessage (stContent m)
  else HumanMessage (stContent m).

Definition loadSession (name : string) : M (string * History) :=
  let* raw := readTextFile (fileOf name) in
  let* data := JSON_parse raw in
  let messages := map (fun m => Inst (revive m)) (srMessages data) in
  ret (srModel data, messages).

(** [name.replace(".json", "")]: the first occurrence goes. *)
Fixpoint removeFirst (pat s : string) : string :=
  match s with
  | EmptyString => EmptyString
  | String c s' =>
      if Js.startsWith pat s then Js.drop (String.length pat) s
      else String c (removeFirst pat s')
  end.

Definition isSessionFile (entry : string * Node) : bool :=
  isFile (snd entry) && Js.endsWith ".json" (fst entry).

Definition listSessions : M (list string) :=
  tryCatch
    (let* entries := readDir in
     ret (map (fun entry => removeFirst ".json" (fst entry))
              (List.filter isSessionFile entries)))
    (fun _ => ret []).

Definition deleteSession (name : string) : M unit := remove (fileOf name).

Definition getMessageType (m : Entry) : string :=
  if isHumanMessage m then "human"
  else if isAIMessage m then "ai"
  else if isSystemMessage m then "system"
  else "unknown".

Definition autoSave (messages : History) (model : string) : M unit :=
  let* _ := ensureDir in
  let* stamp := newDate in
  let timestamp := Js.replaceColonDot (iso stamp) in
  let name := "autosave-" +:+ timestamp in
  let stored := map (fun m => mkStored (getMessageType m) (entryContent m)) messages in
  let* now := newDate in
  writeTextFile (fileOf name) (SessionJson (mkRecord model stored (iso now))).

(** One turn of the loop of [resumeLatestSession]; the loop variables are
    [latestFile] (as a file of the session directory) and [latestTime]. *)
Definition resumeStep (latest : option string * Z) (entry : string * Node)
    : M (option string * Z) :=
  if isSessionFile entry then
    let* mtime := statMtime (fst entry) in
    match mtime with
    | Some t => if snd latest <? t then ret (Some (fst entry), t) else ret latest
    | None => ret latest
    end
  else ret latest.

Definition resumeLatestSession : M (option FileText) :=
  tryCatch
    (let* entries := readDir in
     let* latest := forEach entries resumeStep (None, 0) in
     match fst latest with
     | Some latestFile =>
         let* text := readTextFile latestFile in
         let* dir := gets SESSION_DIR in
         let* _ := print (ResumedFile (dir +:+ "/" +:+ latestFile)) in
         ret (Some text)
     | None =>
         let* _ := print NoSessionFiles in
         ret None
     end)
    (fun err =>
       let* _ := print (ResumeFailed err) in
       ret None).

(** ** Command dispatcher ([command.ts]) *)

(** [modelStack.add(model)] *)
Definition addModel (model : string) : M unit :=
  modify (fun w =>
    if memberOf model (modelStack w) then w
    else setModelStack (modelStack w ++ [model]) w).

(** One turn of the loop over the files of [/file]; the loop variables are
    [fileCount] and [allContent]. *)
Definition attachStep (acc : nat * string) (item : string * ParseResult)
    : M (nat * string) :=
  tryCatch
    (match snd item with
     | ParseFailure e => throw e
     | CodeBlock blockContent rendered =>
         if Js.truthy blockContent then
           let* _ := print (Attached (fst item)) in
           ret (S (fst acc), snd acc +:+ rendered +:+ newline +:+ newline)
         else ret acc
     end)
    (fun error =>
       let* _ := print (FileError (fst item) error) in
       ret acc).

Definition attachFiles (path : string) (messages : History) : M History :=
  tryCatch
    (let* _ := print (Attaching path) in
     let* glob := gets (fun w => loader w path) in
     let* acc := forEach (found glob) attachStep (O, "") in
     let* _ := match failure glob with Some e => throw e | None => ret tt end in
     if (0 <? Z.of_nat (fst acc)) then
       let fileMessage :=
         HumanMessage ("Here are the file(s) I'm attaching (" +:+ pretty (fst acc)
                       +:+ " file(s)):" +:+ newline +:+ Js.trim (snd acc)) in
       let* _ := print (AttachedCount (fst acc)) in
       ret (messages ++ [Inst fileMessage])
     else
       let* _ := print (NoFilesFound path) in
       ret messages)
    (fun error =>
       let* _ := print (PatternError path error) in
       ret messages).

(** The closing block of [handleSlashCommand]: autosave, then the history. *)
Definition autoSaveAndReturn (messages : History) : M History :=
  let* _ :=
    tryCatch
      (let* model := gets defaultModel in
       autoSave messages model)
      (fun error => print (AutoSaveFailed error)) in
  ret messages.

(** The callback of [/clear]: the message itself for a system message,
    [undefined] for any other. *)
Definition keepSystemMessage (message : Entry) : option Entry :=
  if isSystemMessage message then Some message else None.

(** [xs.filter(callback)]: an element stays when the callback's answer is
    truthy; an object is, [undefined] is not. *)
Definition jsFilter {A B : Type} (callback : A -> option B) (xs : list A) : list A :=
  List.filter (fun x => match callback x with Some _ => true | None => false end) xs.

(** The [switch (commandInput)]. *)
Definition standardCommand (command : Command) (messages : History) : M History :=
  match command with
  | Help =>
      let* _ := print CommandMessage in
      autoSaveAndReturn messages
  | Clear =>
      let* _ := print ContextClear in
      ret (jsFilter keepSystemMessage messages)
  | ModelStack =>
      let* models := gets modelStack in
      let* _ := print (ModelStackShown (Js.join newline models)) in
      autoSaveAndReturn messages
  | Sessions =>
      let* sessions := listSessions in
      let* _ := print (SessionsShown sessions) in
      autoSaveAndReturn messages
  | ResumeLatest =>
      let* content := resumeLatestSession in
      match content with
      | Some text =>
          if textTruthy text then
            let* restored := JSON_parse text in
            let* _ := print (ResumedWithModel (srModel restored)) in
            let* _ := addModel (srModel restored) in
            let* _ := modify (setDefaultModel (srModel restored)) in
            ret (map Plain (srMessages restored))
          else
            let* _ := print NoSessionToResume in
            ret messages
      | None =>
          let* _ := print NoSessionToResume in
          ret messages
      end
  | Bye => exit 0
  | File | Save | Load | Delete => autoSaveAndReturn messages
  end.

Definition handleSlashCommand (commandInput : CommandInput) (messages : History)
    : M History :=
  match commandInput with
  | WithPath File path => attachFiles path messages
  | WithPath Save path =>
      let* model := gets defaultModel in
      let* _ := saveSession path messages model in
      let* _ := print (SessionSaved path) in
      ret messages
  | WithPath Load path =>
      let* loaded := loadSession path in
      let* _ := print (SessionLoaded path (fst loaded)) in
      let* _ := addModel (fst loaded) in
      let* _ := modify (setDefaultModel (fst loaded)) in
      ret (snd loaded)
  | WithPath Delete path =>
      let* _ := deleteSession path in
      let* _ := print (SessionDeleted path) in
      ret messages
  | WithPath command _ => standardCommand command messages
  | Bare command => standardCommand command messages
  end.

(** ** Model table ([model.ts]) *)

Module Model.

(** [Params] ([params.ts]): the fields the constructors read. *)
Record Params : Type := mkParams {
  model : string;
  temperature : Q;
  maxTokens : Z;
  apiKey : option string;
  apiVersion : option string;
  endpoint : option string
}.

(** The backend objects, each with the fields its constructor was given;
    [None] for a field that was not passed. *)
Inductive CloseModel : Type :=
| ChatOpenAI (modelName : string) (temperature : Q) (maxTokens : option Z)
| ChatAnthropic (modelName : string) (temperature : Q) (maxTokens : option Z)
| ChatGoogleGenerativeAI (model : string) (temperature : Q) (maxOutputTokens : option Z)
| ChatXAI (model : string) (temperature : Q) (maxTokens : option Z)
| AzureChatOpenAI (azureOpenAIApiKey azureOpenAIApiVersion azureOpenAIEndpoint : option string)
                  (deploymentName : string) (temperature : Q) (maxTokens : option Z).

Definition createOpenAIInstance (params : Params) : CloseModel :=
  ChatOpenAI (model params) (temperature params) (Some (maxTokens params)).

Definition createOpenAIOModelInstance (params : Params) : CloseModel :=
  ChatOpenAI (model params) (temperature params) None.

Definition createAnthropicInstance (params : Params) : CloseModel :=
  ChatAnthropic (model params) (temperature params) (Some (maxTokens params)).

Definition createGoogleGenerativeAIInstance (params : Params) : CloseModel :=
  ChatGoogleGenerativeAI (model params) (temperature params) (Some (maxTokens params)).

Definition createXAIInstance (params : Params) : CloseModel :=
  ChatXAI (model params) (temperature params) (Some (maxTokens params)).

Definition createAzureOpenAIInstance (params : Params) : CloseModel :=
  let deploymentName :=
    if Js.startsWith "azure-" (model params)
    then Js.drop (String.length "azure-") (model params)
    else model params in
  AzureChatOpenAI (apiKey params) (apiVersion params) (endpoint params)
                  deploymentName (temperature params) (Some (maxTokens params)).

Definition modelMap : list (string * (Params -> CloseModel)) :=
  [ ("^gpt", createOpenAIInstance);
    ("^o[0-9]", createOpenAIOModelInstance);
    ("^claude", createAnthropicInstance);
    ("^gem", createGoogleGenerativeAIInstance);
    ("^grok", createXAIInstance);
    ("^azure", createAzureOpenAIInstance) ].

(** The regular expressions of the table: an optional [^], then literal
    characters and classes [[a-b]]. *)
Inductive Atom : Type :=
| Lit (c : ascii)
| Range (lo hi : ascii).

Fixpoint parseAtoms (s : string) : option (list Atom) :=
  match s with
  | EmptyString => Some []
  | String "[" (String lo (String "-" (String hi (String "]" rest)))) =>
      cons (Range lo hi) <$> parseAtoms rest
  | String "[" _ => None
  | String c rest => cons (Lit c) <$> parseAtoms rest
  end.

Definition matchAtom (a : Atom) (c : ascii) : bool :=
  match a with
  | Lit x => Ascii.eqb x c
  | Range lo hi => (nat_of_ascii lo <=? nat_of_ascii c)%nat
                   && (nat_of_ascii c <=? nat_of_ascii hi)%nat
  end.

Fixpoint matchHere (atoms : list Atom) (s : string) : bool :=
  match atoms, s with
  | [], _ => true
  | a :: atoms', String c s' => matchAtom a c && matchHere atoms' s'
  | _ :: _, EmptyString => false
  end.

Fixpoint matchAnywhere (atoms : list Atom) (s : string) : bool :=
  matchHere atoms s ||
  match s with
  | EmptyString => false
  | String _ s' => matchAnywhere atoms s'
  end.

(** [new RegExp(pattern).test(s)] for the patterns above. *)
Definition regexTest (pattern s : string) : bool :=
  match pattern with
  | String "^" body =>
      match parseAtoms body with Some atoms => matchHere atoms s | None => false end
  | _ =>
      match parseAtoms pattern with Some atoms => matchAnywhere atoms s | None => false end
  end.

(** Modelled from the spec: the resolver that walks [modelMap] is not in
    [model.ts].  The rules are an ordered table of (regular expression,
    strategy) pairs tested against the identifier, the first matching
    strategy wins, and an identifier no rule matches is an error. *)
Fixpoint resolveIn (table : list (string * (Params -> CloseModel))) (identifier : string)
    : option (Params -> CloseModel) :=
  match table with
  | [] => None
  | (pattern, strategy) :: rest =>
      if regexTest pattern identifier then Some strategy else resolveIn rest identifier
  end.

(** Modelled from the spec: the resolver applied to the table of
    [model.ts]; [None] is the configuration error of an identifier that no
    rule matches. *)
Definition resolveModel (identifier : string) : option (Params -> CloseModel) :=
  resolveIn modelMap identifier.

(** Modelled from the spec: "the first matching strategy wins", as a
    relation between an identifier and the rule selected for it. *)
Definition Selects (table : list (string * (Params -> CloseModel)))
    (identifier : string) (i : nat) (strategy : Params -> CloseModel) : Prop :=
  (exists pattern, table !! i = Some (pattern, strategy)
                   /\ regexTest pattern identifier = true)
  /\ forall j rule, (j < i)%nat -> table !! j = Some rule ->
                    regexTest (fst rule) identifier = false.

(** [maxTokens] / [maxOutputTokens] as the backend received it. *)
Definition forwardedMaxTokens (b : CloseModel) : option Z :=
  match b with
  | ChatOpenAI _ _ t | ChatAnthropic _ _ t | ChatGoogleGenerativeAI _ _ t
  | ChatXAI _ _ t | AzureChatOpenAI _ _ _ _ _ t => t
  end.

End Model.

(** ** The properties as the specification words them *)

(** The role of a message: the class it is an instance of. *)
Inductive Role : Type := RoleSystem | RoleHuman | RoleAI | RoleUnknown.

Definition roleOf (e : Entry) : Role :=
  match getMessageType e with
  | "human" => RoleHuman
  | "ai" => RoleAI
  | "system" => RoleSystem
  | _ => RoleUnknown
  end%string.

(** The first white-space-delimited token of an input: skip the leading
    white space, then read up to the next one. *)
Definition firstToken (input : string) : string :=
  Js.takeNonSpace (Js.trimStart input).

(** The tokens of the command table. *)
Definition commandTokens : list string := map fst commandMap.

(** The entries whose role is system, in their order. *)
Fixpoint systemEntries (h : History) : History :=
  match h with
  | [] => []
  | e :: rest =>
      match roleOf e with
      | RoleSystem => e :: systemEntries rest
      | _ => systemEntries rest
      end
  end.

(** The text of the last user turn of a history, if there is one. *)
Fixpoint lastUserTurn (h : History) : option string :=
  match h with
  | [] => None
  | e :: rest =>
      match lastUserTurn rest with
      | Some text => Some text
      | None => match roleOf e with RoleHuman => Some (entryContent e) | _ => None end
      end
  end.

(** The most recent user turn found by walking backward from the
    second-to-last entry. *)
Definition priorUserTurn (messages : History) : option string :=
  lastUserTurn (removelast messages).

(** Role normalization of a stored history: system, human and ai keep their
    role, a message of any other type comes back in the default role. *)
Definition normalizeRole (m : BaseMessage) : BaseMessage :=
  match m with
  | SystemMessage _ | HumanMessage _ | AIMessage _ => m
  | OtherMessage t c =>
      if String.eqb t "system" then SystemMessage c
      else if String.eqb t "ai" then AIMessage c
      else HumanMessage c
  end.

Definition isCoreMessage (m : BaseMessage) : bool :=
  match m with OtherMessage _ _ => false | _ => true end.

(** A role tag the store knows. *)
Definition knownTag (t : string) : bool :=
  String.eqb t "system" || String.eqb t "human" || String.eqb t "ai".

(** The session files of a directory, and the modification time of one. *)
Definition sessionFiles (d : list (string * Node)) : list (string * Node) :=
  List.filter isSessionFile d.

Definition mtimeOf (node : Node) : option Z :=
  match node with RegularFile mtime _ => mtime | NotAFile => None end.

(** A session file that [resumeLatestSession] can pick: its modification
    time is there and later than the epoch. *)
Definition datedSessionFile (entry : string * Node) : bool :=
  isSessionFile entry &&
  match mtimeOf (snd entry) with Some t => 0 <? t | None => false end.

(** One turn of the loop of [resumeLatestSession] when [Deno.stat] answers
    with what the directory holds. *)
Definition pickStep (latest : option string * Z) (entry : string * Node)
    : option string * Z :=
  if isSessionFile entry then
    match mtimeOf (snd entry) with
    | Some t => if snd latest <? t then (Some (fst entry), t) else latest
    | None => latest
    end
  else latest.

(** The loop variables after a run over [entries]: [latestTime] bounds the
    modification time of every session file seen, and [latestFile], once
    set, names a session file seen with that very time. *)
Definition Latest (entries : list (string * Node)) (latest : option string * Z) : Prop :=
  0 <= snd latest
  /\ (forall entry t, In entry entries -> isSessionFile entry = true ->
                      mtimeOf (snd entry) = Some t -> t <= snd latest)
  /\ match fst latest with
     | None => snd latest = 0
     | Some n => 0 < snd latest
                 /\ exists text, In (n, RegularFile (Some (snd latest)) text) entries
                                 /\ isSessionFile (n, RegularFile (Some (snd latest)) text) = true
     end.

(** The selection of ResumeLatest as the specification words it, in one
    world: whenever the directory holds session files, what comes back is
    the text of a session file whose modification time no other exceeds. *)
Definition ResumePicksGreatestOfAll (w : World) : Prop :=
  forall d, sessionDir w = Some d -> sessionFiles d <> [] ->
    exists n mtime text,
      In (n, RegularFile mtime text) (sessionFiles d)
      /\ (forall entry t t', In entry (sessionFiles d) ->
            mtimeOf (snd entry) = Some t' -> mtime = Some t -> t' <= t)
      /\ fst (resumeLatestSession w) = Returned (Some text).

(** ** Notions used by the further properties *)

(** What is left of a string after its leading run without white space. *)
Fixpoint dropNonSpace (s : string) : string :=
  match s with
  | EmptyString => EmptyString
  | String c s' => if Js.isWhitespace c then s else dropNonSpace s'
  end.

(** The second white-space-delimited token of an input, empty when there
    is none. *)
Definition secondToken (input : string) : string :=
  Js.takeNonSpace (Js.trimStart (dropNonSpace (Js.trimStart input))).

Fixpoint hasWhitespace (s : string) : bool :=
  match s with
  | EmptyString => false
  | String c s' => Js.isWhitespace c || hasWhitespace s'
  end.

(** [pat] occurs in [s]. *)
Fixpoint occursIn (pat s : string) : bool :=
  Js.startsWith pat s ||
  match s with
  | EmptyString => false
  | String _ s' => occursIn pat s'
  end.

(** What the session directory holds under a file name. *)
Definition fileAt (w : World) (file : string) : option Node :=
  match sessionDir w with
  | Some d => assoc file d
  | None => None
  end.

(** The names in a directory are distinct. *)
Definition distinctNames (w : World) : Prop :=
  forall d, sessionDir w = Some d -> NoDup (map fst d).

(** A message of one of the three classes the store knows. *)
Definition isCoreEntry (e : Entry) : bool :=
  match e with Inst m => isCoreMessage m | Plain _ => false end.

(** The message instances of a history, when it holds nothing else. *)
Fixpoint instancesOf (h : History) : option (list BaseMessage) :=
  match h with
  | [] => Some []
  | Inst m :: rest => cons m <$> instancesOf rest
  | Plain _ :: _ => None
  end.

(** The file the loop of [resumeLatestSession] holds comes, in the order of
    enumeration, before every session file as recent as it is. *)
Definition EarlierAreOlder (entries : list (string * Node)) (latest : option string * Z)
    : Prop :=
  match fst latest with
  | None => True
  | Some n =>
      exists pre text post,
        entries = pre ++ (n, RegularFile (Some (snd latest)) text) :: post
        /\ forall entry t, In entry pre -> isSessionFile entry = true ->
                           mtimeOf (snd entry) = Some t -> t < snd latest
  end.

(** How a message comes back from an autosave: as it was for the three
    classes the store knows, as a human message otherwise. *)
Definition autoRestored (e : Entry) : Entry :=
  if isCoreEntry e then e else Inst (HumanMessage (entryContent e)).

(** The file [autoSave] writes when the clock reads [stamp]. *)
Definition autosaveName (stamp : Instant) : string :=
  "autosave-" +:+ Js.replaceColonDot (iso stamp).

(** A computation keeps a relation between the world it starts in and the
    world it ends in, however it ends. *)
Definition keeps (R : World -> World -> Prop) {A : Type} (c : M A) : Prop :=
  forall w, R w (snd (c w)).

(** The default model and the model stack are as before. *)
Definition SameModels (w w' : World) : Prop :=
  defaultModel w' = defaultModel w /\ modelStack w' = modelStack w.

(** The model stack has lost nothing and gained no duplicate, and the
    default model is as before or in the stack. *)
Definition Tracks (w w' : World) : Prop :=
  (forall m, In m (modelStack w) -> In m (modelStack w'))
  /\ (NoDup (modelStack w) -> NoDup (modelStack w'))
  /\ (defaultModel w' = defaultModel w \/ In (defaultModel w') (modelStack w')).

(** The session directory is as before. *)
Definition SameFiles (w w' : World) : Prop := sessionDir w' = sessionDir w.

(** The files of a pattern that get attached: those the loader could read
    and whose content is not empty. *)
Definition attachable (item : string * ParseResult) : bool :=
  match snd item with
  | CodeBlock blockContent _ => Js.truthy blockContent
  | ParseFailure _ => false
  end.

(** What the files attached add to [allContent], one after the other. *)
Fixpoint attachedContent (items : list (string * ParseResult)) : string :=
  match items with
  | [] => ""
  | (_, CodeBlock _ rendered) :: rest =>
      rendered +:+ newline +:+ newline +:+ attachedContent rest
  | (_, ParseFailure _) :: rest => attachedContent rest
  end.

(** The temperature and the model identifier as a backend received them. *)
Definition forwardedTemperature (b : Model.CloseModel) : Q :=
  match b with
  | Model.ChatOpenAI _ t _ | Model.ChatAnthropic _ t _
  | Model.ChatGoogleGenerativeAI _ t _ | Model.ChatXAI _ t _
  | Model.AzureChatOpenAI _ _ _ _ t _ => t
  end.

Definition forwardedModel (b : Model.CloseModel) : string :=
  match b with
  | Model.ChatOpenAI m _ _ | Model.ChatAnthropic m _ _
  | Model.ChatGoogleGenerativeAI m _ _ | Model.ChatXAI m _ _
  | Model.AzureChatOpenAI _ _ _ m _ _ => m
  end.

(** A character occurs in a string. *)
Fixpoint hasChar (c : ascii) (s : string) : bool :=
  match s with
  | EmptyString => false
  | String a s' => Ascii.eqb a c || hasChar c s'
  end.

(** A computation always returns: it neither throws nor leaves the
    process. *)
Definition returns {A : Type} (c : M A) : Prop :=
  forall w, exists a, fst (c w) = Returned a.

(** A computation never leaves the process. *)
Definition staysIn {A : Type} (c : M A) : Prop :=
  forall w code, fst (c w) <> Exited code.

(** ** Sample worlds *)

Definition sampleClock (n : nat) : Instant :=
  mkInstant (1700000000000 + Z.of_nat n) "2023-11-14T22:13:20.000Z".

Definition emptyLoader (pattern : string) : Glob := mkGlob [] None.

Definition worldWith (d : option (list (string * Node))) (canWrite : bool) : World :=
  mkWorld (Some "/home/user") d canWrite sampleClock O "gpt-4" [] emptyLoader [].

(** Two session files of the same age, and a directory with one old file. *)
Definition tiedDirectory : list (string * Node) :=
  [ ("a.json", RegularFile (Some 1700000000000)
                 (SessionJson (mkRecord "gpt-4" [mkStored "human" "first"] "t")));
    ("b.json", RegularFile (Some 1700000000000)
                 (SessionJson (mkRecord "claude-3" [mkStored "human" "second"] "t"))) ].

Definition oldDirectory : list (string * Node) :=
  [ ("a.json", RegularFile (Some 1600000000000)
                 (SessionJson (mkRecord "claude-3" [mkStored "human" "old"] "t"))) ].

(* ===================================================================== *)
(** * Part II: properties *)
(* ===================================================================== *)

(** ** Strings *)

Example trim_both_ends : Js.trim (String "009" "  /save  a b " +:+ newline) = "/save  a b".
Proof. reflexivity. Qed.

Example split_runs : Js.splitWhitespace "/save  a b" = ["/save"; "a"; "b"].
Proof. reflexivity. Qed.

Example split_keeps_empty_edges : Js.splitWhitespace " a " = [""; "a"; ""].
Proof. reflexivity. Qed.

Example split_empty : Js.splitWhitespace "" = [""].
Proof. reflexivity. Qed.

Example removeFirst_first_only : removeFirst ".json" "a.json.json" = "a.json".
Proof. reflexivity. Qed.

Lemma append_nil_r (s : string) : s +:+ "" = s.
Proof. induction s as [|c s IH]; [reflexivity|]. change (String c (s +:+ "") = String c s). now rewrite IH. Qed.

Lemma append_cons (c : ascii) (s t : string) : String c s +:+ t = String c (s +:+ t).
Proof. reflexivity. Qed.

Lemma append_assoc (s t u : string) : (s +:+ t) +:+ u = s +:+ (t +:+ u).
Proof.
  induction s as [|c s IH]; [reflexivity|].
  rewrite !append_cons. now rewrite IH.
Qed.

Lemma trimEnd_cons_nonspace (c : ascii) (s : string) :
  Js.isWhitespace c = false -> Js.trimEnd (String c s) = String c (Js.trimEnd s).
Proof. intros Hc. simpl. rewrite Hc. now destruct (Js.trimEnd s). Qed.

Lemma trimEnd_cons_space (c : ascii) (s : string) :
  Js.isWhitespace c = true ->
  Js.trimEnd (String c s) = "" \/ exists t, Js.trimEnd (String c s) = String c t.
Proof.
  intros Hc. simpl. rewrite Hc.
  destruct (Js.trimEnd s); [now left | right; eauto].
Qed.

(** The first piece of the split of a right-trimmed string is its longest
    prefix without white space. *)
Lemma splitGo_head (s tok : string) :
  Js.splitGo tok false (Js.trimEnd s) !! 0%nat = Some (tok +:+ Js.takeNonSpace s).
Proof.
  revert tok. induction s as [|c s IH]; intros tok.
  - simpl. now rewrite append_nil_r.
  - destruct (Js.isWhitespace c) eqn:Hc.
    + cbn [Js.takeNonSpace]. rewrite Hc, append_nil_r.
      destruct (trimEnd_cons_space c s Hc) as [-> | [t ->]].
      * reflexivity.
      * cbn [Js.splitGo]. now rewrite Hc.
    + rewrite trimEnd_cons_nonspace by assumption.
      cbn [Js.splitGo Js.takeNonSpace]. rewrite Hc, IH.
      now rewrite append_assoc.
Qed.

(** [inputParts[0]] is the first white-space-delimited token. *)
Lemma input0_firstToken (input : string) : input0 input = Some (firstToken input).
Proof. unfold input0, Js.splitWhitespace, Js.trim. now rewrite splitGo_head. Qed.

Lemma assoc_None_notin {A : Type} (key : string) (table : list (string * A)) :
  assoc key table = None <-> ~ In key (map fst table).
Proof.
  induction table as [|[k a] rest IH]; simpl.
  - tauto.
  - destruct (String.eqb_spec k key) as [->|Hne].
    + split; [discriminate | intros H; exfalso; apply H; now left].
    + rewrite IH. split; [intros H [?|?]; [congruence | tauto] | tauto].
Qed.

Lemma memberOf_In (key : string) (names : list string) :
  memberOf key names = true <-> In key names.
Proof.
  induction names as [|n rest IH]; simpl.
  - split; [discriminate | tauto].
  - destruct (String.eqb_spec n key) as [->|Hne].
    + split; [now left | reflexivity].
    + rewrite IH. split; [now right | intros [?|?]; [congruence | assumption]].
Qed.

(** No member of [Object.prototype] starts with a slash. *)
Lemma slash_not_inherited (token : string) :
  Js.startsWith "/" token = true -> memberOf token objectPrototype = false.
Proof.
  intros Hs. destruct (memberOf token objectPrototype) eqn:Hm; [|reflexivity].
  apply memberOf_In in Hm. simpl in Hm.
  repeat (destruct Hm as [<- | Hm]; [discriminate Hs|]). destruct Hm.
Qed.

(** ** Command classifier *)

(** What [newSlashCommand] does with a token that is no own property of
    the command table. *)
Lemma newSlashCommand_unlisted (input : string) :
  ~ In (firstToken input) commandTokens ->
  newSlashCommand input =
    if memberOf (firstToken input) objectPrototype
    then inr (IsInherited (firstToken input))
    else inl (InvalidCommand (firstToken input)).
Proof.
  intros Hnot. unfold newSlashCommand.
  pose proof (input0_firstToken input) as H0. unfold input0 in H0. rewrite H0.
  unfold getProperty.
  apply (assoc_None_notin (firstToken input) commandMap) in Hnot. rewrite Hnot.
  now destruct (memberOf (firstToken input) objectPrototype).
Qed.

(** C6. An input whose first white-space-delimited token starts with a
    slash and is not in the command token table (such as "/bogus") fails
    classification with the unknown-command error.  It is never handed back
    as a command or as content; the classifier is a function of the input
    alone, so no history is involved and none can change. *)
Theorem unknown_slash_command_fails (input : string) :
  Js.startsWith "/" (firstToken input) = true ->
  ~ In (firstToken input) commandTokens ->
  newSlashCommand input = inl (InvalidCommand (firstToken input)).
Proof.
  intros Hslash Hnot.
  rewrite newSlashCommand_unlisted by assumption.
  now rewrite slash_not_inherited.
Qed.

Lemma unknown_slash_command_fails_witness :
  Js.startsWith "/" (firstToken "/bogus") = true /\
  ~ In (firstToken "/bogus") commandTokens /\
  newSlashCommand "/bogus" = inl (InvalidCommand "/bogus").
Proof.
  split; [reflexivity|]. split.
  - vm_compute. intros H. repeat (destruct H as [H|H]; [discriminate H|]). exact H.
  - apply (unknown_slash_command_fails "/bogus"); [reflexivity|].
    vm_compute. intros H. repeat (destruct H as [H|H]; [discriminate H|]). exact H.
Defined.

(** A token that is neither in the table nor the name of a member of
    [Object.prototype] is rejected, whether or not it starts with a slash. *)
Lemma newSlashCommand_ordinary_token_fails (input : string) :
  ~ In (firstToken input) commandTokens ->
  ~ In (firstToken input) objectPrototype ->
  newSlashCommand input = inl (InvalidCommand (firstToken input)).
Proof.
  intros Hnot Hproto. rewrite newSlashCommand_unlisted by assumption.
  destruct (memberOf (firstToken input) objectPrototype) eqn:Hm; [|reflexivity].
  apply memberOf_In in Hm. contradiction.
Qed.

Example newSlashCommand_hello : newSlashCommand "hello" = inl (InvalidCommand "hello").
Proof. reflexivity. Qed.

(** C9. [newSlashCommand] is to throw for every input whose first token is
    not in the command token table.  It does not for "toString": the token
    is not in the table, yet the property read on the object literal finds
    [Object.prototype.toString], which is truthy, and the function hands
    that member back instead of throwing. *)
Theorem newSlashCommand_accepts_inherited_member :
  ~ In (firstToken "toString") commandTokens /\
  newSlashCommand "toString" = inr (IsInherited "toString") /\
  (forall e, newSlashCommand "toString" <> inl e).
Proof.
  split; [|split].
  - vm_compute. intros H. repeat (destruct H as [H|H]; [discriminate H|]). exact H.
  - reflexivity.
  - intros e. discriminate.
Qed.

(** ** The monad *)

Ltac run :=
  unfold bind, tryCatch, ret, throw, exit, gets, modify, print, newDate in *;
  simpl in *.

(** [autoSave] returns or throws; it never leaves the process. *)
Lemma autoSave_outcome (messages : History) (model : string) (w : World) :
  exists w', autoSave messages model w = (Returned tt, w')
             \/ exists e, autoSave messages model w = (Thrown e, w').
Proof.
  unfold autoSave, ensureDir, writeTextFile. run.
  repeat case_match; simplify_eq; eauto.
Qed.

(** The closing block always returns the history it was given: a failed
    autosave is printed and goes no further. *)
Lemma autoSaveAndReturn_returns (messages : History) (w : World) :
  exists w', autoSaveAndReturn messages w = (Returned messages, w').
Proof.
  unfold autoSaveAndReturn.
  destruct (autoSave_outcome messages (defaultModel w) w) as [w' [H | [e H]]];
    run; rewrite H; eauto.
Qed.

Lemma listSessions_returns (w : World) :
  exists names, listSessions w = (Returned names, w).
Proof. unfold listSessions, readDir. run. destruct (sessionDir w); eauto. Qed.

Lemma mapM_storeTyped_outcome (messages : History) (w : World) :
  (exists stored, mapM storeTyped messages w = (Returned stored, w))
  \/ (exists e, mapM storeTyped messages w = (Thrown e, w)).
Proof.
  induction messages as [|m rest IH]; simpl.
  - left. now exists [].
  - destruct m as [m|r]; run.
    + destruct IH as [[stored ->] | [e ->]]; eauto.
    + right. eauto.
Qed.

Lemma mapM_storeTyped_instances (H : list BaseMessage) (w : World) :
  mapM storeTyped (map Inst H) w
  = (Returned (map (fun m => mkStored (_getType m) (content m)) H), w).
Proof.
  induction H as [|m rest IH]; [reflexivity|].
  simpl. run. now rewrite IH.
Qed.

(** [saveSession] and [deleteSession] return or throw. *)
Lemma saveSession_outcome (name : string) (messages : History) (model : string) (w : World) :
  exists w', saveSession name messages model w = (Returned tt, w')
             \/ exists e, saveSession name messages model w = (Thrown e, w').
Proof.
  unfold saveSession, ensureDir. run.
  destruct (sessionDir w) as [d|] eqn:Hd; [|destruct (writable w) eqn:Hw].
  - destruct (mapM_storeTyped_outcome messages w) as [[stored ->] | [e ->]]; [|eauto].
    unfold writeTextFile. simpl. repeat case_match; simplify_eq; eauto.
  - destruct (mapM_storeTyped_outcome messages (setSessionDir (Some []) w))
      as [[stored ->] | [e ->]]; [|eauto].
    unfold writeTextFile. simpl. repeat case_match; simplify_eq; eauto.
  - eauto.
Qed.

Lemma deleteSession_outcome (name : string) (w : World) :
  exists w', deleteSession name w = (Returned tt, w')
             \/ exists e, deleteSession name w = (Thrown e, w').
Proof.
  unfold deleteSession, remove. repeat case_match; simplify_eq; eauto.
Qed.

(** ** Command dispatcher *)

(** The commands that end in the closing block: they return the history
    they were given, whatever the autosave does. *)
Lemma standard_tail_returns (command : Command) (messages : History) (w : World) :
  In command [Help; ModelStack; Sessions; File; Save; Load; Delete] ->
  exists w', standardCommand command messages w = (Returned messages, w').
Proof.
  intros Hin. simpl in Hin.
  destruct Hin as [<-|[<-|[<-|[<-|[<-|[<-|[<-|[]]]]]]]]; simpl; run;
    try (destruct (listSessions_returns w) as [names ->]);
    apply autoSaveAndReturn_returns.
Qed.

(** C10. Save, Delete, Help, ModelStack and Sessions hand back the very
    history they were given: the call returns that history, or -- for Save
    and Delete with a name, when the store fails -- throws and returns
    nothing.  A returned history that differs from the given one comes from
    File, Clear, Load or ResumeLatest. *)
Theorem handleSlashCommand_frame (ci : CommandInput) (messages : History) (w : World) :
  (In (commandOf ci) [Save; Delete; Help; ModelStack; Sessions] ->
     (exists w', handleSlashCommand ci messages w = (Returned messages, w'))
     \/ (exists path e w',
           (ci = WithPath Save path \/ ci = WithPath Delete path)
           /\ handleSlashCommand ci messages w = (Thrown e, w')))
  /\ (forall r w',
        handleSlashCommand ci messages w = (Returned r, w') ->
        r <> messages ->
        In (commandOf ci) [File; Clear; Load; ResumeLatest]).
Proof.
  assert (Htail : forall c, In c [Help; ModelStack; Sessions; File; Save; Load; Delete] ->
            exists w', standardCommand c messages w = (Returned messages, w'))
    by (intros c Hc; now apply standard_tail_returns).
  assert (Hsave : forall path,
            (exists w', handleSlashCommand (WithPath Save path) messages w = (Returned messages, w'))
            \/ (exists e w', handleSlashCommand (WithPath Save path) messages w = (Thrown e, w'))).
  { intros path. simpl. run.
    destruct (saveSession_outcome path messages (defaultModel w) w) as [w' [-> | [e ->]]]; eauto. }
  assert (Hdelete : forall path,
            (exists w', handleSlashCommand (WithPath Delete path) messages w = (Returned messages, w'))
            \/ (exists e w', handleSlashCommand (WithPath Delete path) messages w = (Thrown e, w'))).
  { intros path. simpl. run.
    destruct (deleteSession_outcome path w) as [w' [-> | [e ->]]]; eauto. }
  split.
  - intros Hin. destruct ci as [c | c path]; simpl in Hin.
    + left. simpl. apply Htail. simpl.
      destruct Hin as [<-|[<-|[<-|[<-|[<-|[]]]]]]; tauto.
    + destruct Hin as [<-|[<-|[<-|[<-|[<-|[]]]]]].
      * destruct (Hsave path) as [? | [e [w' ?]]]; [now left | right; eauto 10].
      * destruct (Hdelete path) as [? | [e [w' ?]]]; [now left | right; eauto 10].
      * left. apply Htail. simpl. tauto.
      * left. apply Htail. simpl. tauto.
      * left. apply Htail. simpl. tauto.
  - intros r w' Hrun Hne.
    assert (Hsame : forall c, In c [Help; ModelStack; Sessions; File; Save; Load; Delete] ->
              standardCommand c messages w = (Returned r, w') -> False).
    { intros c Hc Hstd. destruct (Htail c Hc) as [w'' Heq]. congruence. }
    destruct ci as [c | c path]; simpl commandOf.
    + destruct c; simpl; try tauto;
        try (exfalso; refine (Hsame _ _ Hrun); simpl; tauto).
      discriminate Hrun.
    + destruct c; simpl; try tauto;
        try (exfalso; refine (Hsame _ _ Hrun); simpl; tauto).
      * discriminate Hrun.
      * exfalso. destruct (Hsave path) as [[w'' Heq] | [e [w'' Heq]]]; congruence.
      * exfalso. destruct (Hdelete path) as [[w'' Heq] | [e [w'' Heq]]]; congruence.
Qed.

(** *** Clear *)

Lemma roleOf_system (e : Entry) : roleOf e = RoleSystem <-> isSystemMessage e = true.
Proof. destruct e as [[c|c|c|t c]|r]; split; intros H; cbv in H |- *; congruence. Qed.

Lemma jsFilter_systemEntries (h : History) : jsFilter keepSystemMessage h = systemEntries h.
Proof.
  induction h as [|e rest IH]; [reflexivity|].
  unfold jsFilter in *. simpl. rewrite IH. unfold keepSystemMessage.
  destruct e as [[c|c|c|t c]|r]; reflexivity.
Qed.

Lemma systemEntries_sublist (h : History) : sublist (systemEntries h) h.
Proof.
  induction h as [|e rest IH]; simpl; [constructor|].
  destruct (roleOf e); now constructor.
Qed.

Lemma systemEntries_In (h : History) (e : Entry) :
  In e (systemEntries h) <-> In e h /\ roleOf e = RoleSystem.
Proof.
  induction h as [|x rest IH]; simpl; [tauto|].
  destruct (roleOf x) eqn:Hx; simpl; rewrite IH;
    (split; [intros [<-|[? ?]]; auto | intros [[<-|?] ?]; auto; congruence])
    || (split; [intros [? ?]; auto | intros [[<-|?] ?]; auto; congruence]).
Qed.

Lemma systemEntries_idempotent (h : History) :
  systemEntries (systemEntries h) = systemEntries h.
Proof.
  induction h as [|e rest IH]; [reflexivity|]. simpl.
  destruct (roleOf e) eqn:He; simpl; rewrite ?He; now rewrite ?IH.
Qed.

(** C5. Clear returns exactly the entries whose role is system, in their
    original relative order -- whether the command comes bare or with an
    argument -- and clearing a cleared history gives it back unchanged. *)
Theorem clear_keeps_system_entries (messages : History) (w w2 : World) (path : string) :
  handleSlashCommand (Bare Clear) messages w
    = (Returned (systemEntries messages), setTerminal (terminal w ++ [ContextClear]) w)
  /\ handleSlashCommand (WithPath Clear path) messages w
    = handleSlashCommand (Bare Clear) messages w
  /\ sublist (systemEntries messages) messages
  /\ (forall e, In e (systemEntries messages) <-> In e messages /\ roleOf e = RoleSystem)
  /\ fst (handleSlashCommand (Bare Clear) (systemEntries messages) w2)
     = Returned (systemEntries messages).
Proof.
  split; [|split; [|split; [|split]]].
  - simpl. run. now rewrite jsFilter_systemEntries.
  - reflexivity.
  - apply systemEntries_sublist.
  - apply systemEntries_In.
  - simpl. run. now rewrite jsFilter_systemEntries, systemEntries_idempotent.
Qed.

(** *** Autosave *)

(** For Help, ModelStack and Sessions the dispatcher ends with the autosave
    of the history under the default model, and hands the history back
    whatever the autosave did. *)
Lemma help_ends_with_autosave (messages : History) (w : World) :
  handleSlashCommand (Bare Help) messages w
  = autoSaveAndReturn messages (setTerminal (terminal w ++ [CommandMessage]) w).
Proof. reflexivity. Qed.

Lemma autosave_failure_is_printed (messages : History) (w : World) :
  writable w = false -> sessionDir w = None ->
  autoSaveAndReturn messages w
  = (Returned messages,
     setTerminal (terminal w ++ [AutoSaveFailed (IoError "ensureDir" (SESSION_DIR w))]) w).
Proof.
  intros Hw Hd. unfold autoSaveAndReturn, autoSave, ensureDir. run.
  now rewrite Hd, Hw.
Qed.

(** Save with a name is another command that returns before the closing
    block: the directory ends up with the named file and no autosave. *)
Example save_returns_without_autosave :
  map fst <$> sessionDir (snd (handleSlashCommand (WithPath Save "test")
                                 [Inst (HumanMessage "hi")] (worldWith (Some []) true)))
  = Some ["test.json"].
Proof. reflexivity. Qed.

(** C1. After every command but Bye the dispatcher is to autosave the
    resulting history.  Clear returns before the closing block: in a world
    where an autosave would write a file (as it does after Help), Clear
    leaves the session directory and the clock as they were and prints
    nothing but its own notice. *)
Theorem clear_returns_without_autosave :
  let w := worldWith (Some []) true in
  let messages := [Inst (SystemMessage "be brief"); Inst (HumanMessage "hi")] in
  handleSlashCommand (Bare Clear) messages w
    = (Returned [Inst (SystemMessage "be brief")], setTerminal [ContextClear] w)
  /\ sessionDir (snd (handleSlashCommand (Bare Clear) messages w)) = Some []
  /\ sessionDir (snd (handleSlashCommand (Bare Help) messages w))
     = Some [("autosave-2023-11-14T22-13-20-000Z.json",
              RegularFile (Some 1700000000002)
                (SessionJson (mkRecord "gpt-4"
                   [mkStored "system" "be brief"; mkStored "human" "hi"]
                   "2023-11-14T22:13:20.000Z")))]
  /\ (forall history world,
        handleSlashCommand (Bare Clear) history world
        = (Returned (jsFilter keepSystemMessage history),
           setTerminal (terminal world ++ [ContextClear]) world)).
Proof.
  cbv zeta. split; [|split; [|split]]; try reflexivity.
Qed.

(** ** At-mentions *)

(** With no content after the model identifier, the message is what
    [getMessageFromHistory] finds: the text of the second-to-last entry of a
    history of more than two entries, whatever its role, and nothing
    otherwise. *)
Lemma handleAtCommand_empty_content (humanMessage : Entry) (messages : History)
    (model : string) :
  isAtCommand humanMessage = true ->
  mmMessage (extractAtModel (entryContent humanMessage)) = "" ->
  mmMessage (handleAtCommand humanMessage messages model)
  = if (2 <? Z.of_nat (length messages))
    then default "" (entryContent <$> messages !! (length messages - 2)%nat)
    else "".
Proof.
  intros Hat Hempty. unfold handleAtCommand. rewrite Hat. simpl.
  rewrite Hempty. simpl. unfold getMessageFromHistory, at_.
  change (Z.abs (-2)) with 2.
  destruct (2 <? Z.of_nat (length messages)) eqn:Hlen; [|reflexivity].
  apply Z.ltb_lt in Hlen.
  destruct (Z.of_nat (length messages) + -2 <? 0) eqn:Hneg;
    [apply Z.ltb_lt in Hneg; lia|].
  replace (Z.to_nat (Z.of_nat (length messages) + -2)) with (length messages - 2)%nat by lia.
  destruct (messages !! (length messages - 2)%nat) as [e|]; simpl; [|reflexivity].
  unfold orElse. now destruct (entryContent e).
Qed.

(** C2. With empty content after the model identifier, [handleAtCommand] is
    to take the text of the most recent user turn, found by walking the
    history backward from the second-to-last entry.  It reads one fixed
    position instead, and only in a history of more than two entries.  After
    one exchange, with the prior turn "earlier question" second-to-last in
    a history of two, it substitutes nothing; and when the second-to-last
    entry is a reply (the last one being a file attached with [/file]), it
    substitutes the reply. *)
Theorem handleAtCommand_misses_prior_turn :
  let exchange := [Inst (HumanMessage "earlier question"); Inst (AIMessage "an answer")] in
  let attached := [Inst (SystemMessage "be brief"); Inst (HumanMessage "earlier question");
                   Inst (AIMessage "an answer"); Inst (HumanMessage "the attached file")] in
  priorUserTurn exchange = Some "earlier question"
  /\ handleAtCommand (Inst (HumanMessage "@claude-3")) exchange "gpt-4"
     = mkModelMessage "claude-3" ""
  /\ priorUserTurn attached = Some "earlier question"
  /\ handleAtCommand (Inst (HumanMessage "@claude-3")) attached "gpt-4"
     = mkModelMessage "claude-3" "an answer".
Proof. cbv zeta. repeat split; reflexivity. Qed.

(** The at-mention examples of the specification.  The prior turn is found
    when it happens to sit second-to-last in a history of three or more. *)
Example at_mention_with_content :
  handleAtCommand (Inst (HumanMessage "@claude-3 hello")) [] "gpt-4"
  = mkModelMessage "claude-3" "hello".
Proof. reflexivity. Qed.

Example at_mention_plain_text :
  handleAtCommand (Inst (HumanMessage "plain text")) [] "gpt-4"
  = mkModelMessage "gpt-4" "plain text".
Proof. reflexivity. Qed.

Example at_mention_after_system_prompt :
  handleAtCommand (Inst (HumanMessage "@claude-3"))
    [Inst (SystemMessage "be brief"); Inst (HumanMessage "earlier question");
     Inst (AIMessage "an answer")] "gpt-4"
  = mkModelMessage "claude-3" "earlier question".
Proof. reflexivity. Qed.

(** ** Session store *)

Lemma assoc_putEntry (n : string) (node : Node) (d : list (string * Node)) :
  assoc n (putEntry n node d) = Some node.
Proof.
  induction d as [|[k v] rest IH]; simpl.
  - now rewrite String.eqb_refl.
  - destruct (String.eqb k n) eqn:Hk; simpl; now rewrite Hk.
Qed.

Lemma revive_stored (m : BaseMessage) :
  revive (mkStored (_getType m) (content m)) = normalizeRole m.
Proof.
  destruct m as [c|c|c|t c]; try reflexivity.
  unfold revive, normalizeRole. simpl.
  destruct (String.eqb t "system"); [reflexivity|].
  destruct (String.eqb_spec t "human") as [->|_]; reflexivity.
Qed.

Lemma normalizeRole_content (m : BaseMessage) : content (normalizeRole m) = content m.
Proof.
  destruct m as [c|c|c|t c]; try reflexivity. unfold normalizeRole.
  destruct (String.eqb t "system"); [reflexivity|].
  now destruct (String.eqb t "ai").
Qed.

Lemma normalizeRole_core (m : BaseMessage) : isCoreMessage m = true -> normalizeRole m = m.
Proof. destruct m; [reflexivity..|discriminate]. Qed.

Lemma map_normalizeRole_core (H : list BaseMessage) :
  forallb isCoreMessage H = true -> map normalizeRole H = H.
Proof.
  induction H as [|m rest IH]; [reflexivity|]. simpl.
  intros [Hm Hrest]%andb_true_iff.
  now rewrite normalizeRole_core, IH.
Qed.

(** What [loadSession] makes of a stored record. *)
Lemma loadSession_record (name : string) (w : World) (d : list (string * Node))
    (mtime : option Z) (r : SessionRecord) :
  sessionDir w = Some d ->
  assoc (fileOf name) d = Some (RegularFile mtime (SessionJson r)) ->
  loadSession name w
  = (Returned (srModel r, map (fun m => Inst (revive m)) (srMessages r)), w).
Proof.
  intros Hd Hfile. unfold loadSession, readTextFile. run. now rewrite Hd, Hfile.
Qed.

(** What a successful [saveSession] leaves in the session directory. *)
Lemma saveSession_writes (name : string) (H : list BaseMessage) (model : string)
    (w w' : World) :
  saveSession name (map Inst H) model w = (Returned tt, w') ->
  exists d mtime stamp,
    sessionDir w' = Some d
    /\ assoc (fileOf name) d
       = Some (RegularFile mtime
                 (SessionJson (mkRecord model
                    (map (fun m => mkStored (_getType m) (content m)) H) stamp))).
Proof.
  unfold saveSession, ensureDir. run.
  destruct (sessionDir w) as [d|] eqn:Hd; [|destruct (writable w) eqn:Hw];
    rewrite ?mapM_storeTyped_instances; unfold writeTextFile; simpl;
    rewrite ?Hd; repeat case_match; intros Hrun; simplify_eq; simpl;
    eexists _, _, _; (split; [reflexivity|]);
    first [apply assoc_putEntry | apply (assoc_putEntry _ _ [])].
Qed.

(** [saveSession] does return when nothing stands in the way of the write. *)
Lemma saveSession_succeeds (name : string) (H : list BaseMessage) (model : string)
    (w : World) (d : list (string * Node)) :
  sessionDir w = Some d -> writable w = true ->
  hasSlash (fileOf name) = false ->
  assoc (fileOf name) d <> Some NotAFile ->
  exists w', saveSession name (map Inst H) model w = (Returned tt, w').
Proof.
  intros Hd Hw Hslash Hnode. unfold saveSession, ensureDir. run.
  rewrite Hd, mapM_storeTyped_instances. unfold writeTextFile. simpl.
  rewrite Hd, Hw, Hslash. simpl.
  destruct (assoc (fileOf name) d) as [[mtime text|]|]; eauto. congruence.
Qed.

(** C3. Once [saveSession] has written history [H] and model [M] under a
    name, [loadSession] of that name returns model [M] and a history of the
    same length, with the same contents in the same order, each message in
    its normalized role; a history of system, human and ai messages comes
    back as it was. *)
Theorem save_load_roundtrip (name : string) (H : list BaseMessage) (M : string)
    (w w' : World) :
  saveSession name (map Inst H) M w = (Returned tt, w') ->
  exists H',
    loadSession name w' = (Returned (M, map Inst H'), w')
    /\ H' = map normalizeRole H
    /\ length H' = length H
    /\ map content H' = map content H
    /\ (forallb isCoreMessage H = true -> H' = H).
Proof.
  intros Hsave.
  destruct (saveSession_writes name H M w w' Hsave) as (d & mtime & stamp & Hd & Hfile).
  exists (map normalizeRole H).
  rewrite (loadSession_record name w' d mtime _ Hd Hfile). simpl.
  split; [|split; [reflexivity|split; [|split]]].
  - do 3 f_equal. rewrite !map_map. apply map_ext. intros m. now rewrite revive_stored.
  - now rewrite length_map.
  - rewrite map_map. apply map_ext. apply normalizeRole_content.
  - apply map_normalizeRole_core.
Qed.

Lemma save_load_roundtrip_witness :
  let w := worldWith (Some []) true in
  let H := [SystemMessage "be brief"; HumanMessage "hi"; AIMessage "hello";
            OtherMessage "tool" "42"] in
  let w' := snd (saveSession "test" (map Inst H) "gpt-4" w) in
  saveSession "test" (map Inst H) "gpt-4" w = (Returned tt, w')
  /\ exists H',
       loadSession "test" w' = (Returned ("gpt-4", map Inst H'), w')
       /\ H' = map normalizeRole H
       /\ length H' = length H
       /\ map content H' = map content H
       /\ (forallb isCoreMessage H = true -> H' = H).
Proof.
  cbv zeta. split; [reflexivity|].
  apply (save_load_roundtrip "test" _ "gpt-4" (worldWith (Some []) true)).
  reflexivity.
Defined.

(** A role tag the store does not know comes back from [loadSession] in
    the default role, human; the load does not fail on it. *)
Lemma revive_unknown_tag (m : StoredMessage) :
  knownTag (stType m) = false -> revive m = HumanMessage (stContent m).
Proof.
  unfold knownTag, revive. intros Hk.
  apply orb_false_iff in Hk as [Hk Hai]. apply orb_false_iff in Hk as [Hsys Hhum].
  now rewrite Hsys, Hhum, Hai.
Qed.

(** What ResumeLatest makes of the record it picked: the parsed objects
    themselves, none of them rebuilt into a message. *)
Lemma resumed_history_is_plain (r : SessionRecord) (e : Entry) :
  In e (map Plain (srMessages r)) ->
  roleOf e = RoleUnknown /\ exists m, e = Plain m /\ In m (srMessages r).
Proof.
  intros Hin. apply in_map_iff in Hin as (m & <- & Hm).
  split; [reflexivity | eauto].
Qed.

(** C8. A stored message whose role tag is unknown is to come back in a
    safe default role on both restore paths.  [loadSession] does that; the
    ResumeLatest path hands back the parsed objects as they are, the tag
    "tool" still on the message and no role substituted. *)
Theorem resumeLatest_substitutes_no_role :
  let record := mkRecord "claude-3"
                  [mkStored "system" "be brief"; mkStored "tool" "42"]
                  "2023-11-14T22:13:20.000Z" in
  let w := worldWith (Some [("s.json", RegularFile (Some 1700000000000) (SessionJson record))])
                     true in
  knownTag "tool" = false
  /\ fst (loadSession "s" w)
     = Returned ("claude-3", [Inst (SystemMessage "be brief"); Inst (HumanMessage "42")])
  /\ fst (handleSlashCommand (Bare ResumeLatest) [] w)
     = Returned [Plain (mkStored "system" "be brief"); Plain (mkStored "tool" "42")]
  /\ map roleOf [Plain (mkStored "system" "be brief"); Plain (mkStored "tool" "42")]
     = [RoleUnknown; RoleUnknown].
Proof. cbv zeta. repeat split; reflexivity. Qed.

(** A resumed history and Clear: a plain object is no instance of
    [SystemMessage], whatever its tag, so Clear drops it. *)
Example clear_drops_resumed_system_message :
  fst (handleSlashCommand (Bare Clear) [Plain (mkStored "system" "be brief")]
         (worldWith (Some []) true))
  = Returned [].
Proof. reflexivity. Qed.

(** ** ResumeLatest *)

Lemma assoc_NoDup_In {A : Type} (n : string) (v : A) (d : list (string * A)) :
  NoDup (map fst d) -> In (n, v) d -> assoc n d = Some v.
Proof.
  induction d as [|[k a] rest IH]; simpl; [tauto|].
  intros Hnd [Heq | Hin].
  - injection Heq as -> ->. now rewrite String.eqb_refl.
  - apply NoDup_cons in Hnd as [Hk Hrest].
    destruct (String.eqb_spec k n) as [->|Hne].
    + exfalso. apply Hk. apply list_elem_of_In, in_map_iff. now exists (n, v).
    + now apply IH.
Qed.

Lemma Latest_step (seen : list (string * Node)) (latest : option string * Z)
    (entry : string * Node) :
  Latest seen latest -> Latest (seen ++ [entry]) (pickStep latest entry).
Proof.
  intros (Hpos & Hbound & Hfile). unfold pickStep.
  assert (Hkeep : (forall t, isSessionFile entry = true ->
                     mtimeOf (snd entry) = Some t -> t <= snd latest) ->
                  Latest (seen ++ [entry]) latest).
  { intros Hentry. split; [assumption|split].
    - intros e t [He | [<- | []]]%in_app_iff Hse Ht; eauto.
    - destruct (fst latest); [|assumption].
      destruct Hfile as (Hlt & text & Hin & Hs). split; [assumption|].
      exists text. split; [apply in_app_iff; now left | assumption]. }
  destruct (isSessionFile entry) eqn:Hsf; [|apply Hkeep; discriminate].
  destruct (mtimeOf (snd entry)) as [t|] eqn:Hmt; [|apply Hkeep; discriminate].
  destruct (snd latest <? t) eqn:Hlt.
  - apply Z.ltb_lt in Hlt. split; [simpl; lia|split].
    + simpl. intros e t' [He | [<- | []]]%in_app_iff Hse Ht.
      * specialize (Hbound e t' He Hse Ht). lia.
      * rewrite Hmt in Ht. injection Ht as <-. lia.
    + simpl. split; [lia|].
      destruct entry as [n [mtime text|]]; [|discriminate Hsf].
      simpl in Hmt. subst mtime. exists text. split; [|assumption].
      apply in_app_iff. right. now left.
  - apply Z.ltb_ge in Hlt. apply Hkeep. intros t' _ [= <-]. assumption.
Qed.

Lemma Latest_fold (entries seen : list (string * Node)) (latest : option string * Z) :
  Latest seen latest -> Latest (seen ++ entries) (fold_left pickStep entries latest).
Proof.
  revert seen latest. induction entries as [|entry rest IH]; intros seen latest Hl.
  - now rewrite app_nil_r.
  - simpl. replace (seen ++ entry :: rest) with ((seen ++ [entry]) ++ rest)
      by now rewrite <- app_assoc.
    apply IH. now apply Latest_step.
Qed.

Lemma Latest_start : Latest [] (None, 0).
Proof. split; [simpl; lia | split; [intros ? ? [] | reflexivity]]. Qed.

(** The file the loop ends on, over a whole directory. *)
Lemma pick_over_directory (d : list (string * Node)) :
  Latest d (fold_left pickStep d (None, 0)).
Proof. apply (Latest_fold d [] (None, 0)), Latest_start. Qed.

Lemma no_dated_file_no_pick (d : list (string * Node)) :
  List.filter datedSessionFile d = [] -> fst (fold_left pickStep d (None, 0)) = None.
Proof.
  intros Hnone. pose proof (pick_over_directory d) as (_ & _ & Hfile).
  destruct (fst (fold_left pickStep d (None, 0))) as [n|]; [|reflexivity].
  destruct Hfile as (Hlt & text & Hin & Hsf).
  assert (Hd : In (n, RegularFile (Some (snd (fold_left pickStep d (None, 0)))) text)
                  (List.filter datedSessionFile d)).
  { apply filter_In. split; [assumption|]. unfold datedSessionFile.
    rewrite Hsf. simpl. now apply Z.ltb_lt. }
  rewrite Hnone in Hd. destruct Hd.
Qed.

Lemma dated_file_is_picked (d : list (string * Node)) :
  List.filter datedSessionFile d <> [] ->
  exists n, fst (fold_left pickStep d (None, 0)) = Some n.
Proof.
  intros Hsome. pose proof (pick_over_directory d) as (_ & Hbound & Hfile).
  destruct (fst (fold_left pickStep d (None, 0))) as [n|]; [eauto|].
  exfalso. apply Hsome.
  destruct (List.filter datedSessionFile d) as [|entry rest] eqn:Hf; [reflexivity|].
  assert (Hin : In entry (List.filter datedSessionFile d)) by (rewrite Hf; now left).
  apply filter_In in Hin as [Hin Hdated]. unfold datedSessionFile in Hdated.
  apply andb_true_iff in Hdated as [Hsf Ht].
  destruct (mtimeOf (snd entry)) as [t|] eqn:Hmt; [|discriminate].
  apply Z.ltb_lt in Ht. specialize (Hbound entry t Hin Hsf Hmt). lia.
Qed.

Lemma no_session_file_no_dated_file (d : list (string * Node)) :
  sessionFiles d = [] -> List.filter datedSessionFile d = [].
Proof.
  unfold sessionFiles. induction d as [|entry rest IH]; [reflexivity|]. simpl.
  unfold datedSessionFile at 1.
  destruct (isSessionFile entry); [discriminate | exact IH].
Qed.

(** Without a session directory the enumeration fails; the failure is
    printed and the history stays. *)
Lemma resumeLatest_without_directory (messages : History) (w : World) :
  sessionDir w = None ->
  exists w', handleSlashCommand (Bare ResumeLatest) messages w = (Returned messages, w')
             /\ terminal w' = terminal w ++ [ResumeFailed (IoError "readDir" (SESSION_DIR w));
                                             NoSessionToResume].
Proof.
  intros Hd. simpl. unfold resumeLatestSession, readDir. run. rewrite Hd. simpl.
  eexists. split; [reflexivity|]. simpl. now rewrite <- app_assoc.
Qed.

(** A world whose session directory exists, with distinct file names. *)
Section Directory.

Variable w : World.
Variable d : list (string * Node).
Hypothesis directory : sessionDir w = Some d.
Hypothesis distinct_names : NoDup (map fst d).

(** [Deno.stat] on a listed entry answers with the entry itself, so one
    turn of the loop is [pickStep] and leaves the world alone. *)
Lemma resumeStep_pickStep (latest : option string * Z) (entry : string * Node) :
  In entry d ->
  resumeStep latest entry w = (Returned (pickStep latest entry), w).
Proof.
  intros Hin. unfold resumeStep, pickStep.
  destruct (isSessionFile entry) eqn:Hfile; [|reflexivity].
  unfold statMtime. run. rewrite directory.
  destruct entry as [n node]. cbn [fst snd].
  rewrite (assoc_NoDup_In n node d distinct_names Hin).
  destruct node as [mtime text|]; [|discriminate Hfile]. simpl.
  destruct mtime as [t|]; [|reflexivity].
  now destruct (snd latest <? t).
Qed.

Lemma forEach_resumeStep (entries : list (string * Node)) (latest : option string * Z) :
  (forall entry, In entry entries -> In entry d) ->
  forEach entries resumeStep latest w = (Returned (fold_left pickStep entries latest), w).
Proof.
  revert latest. induction entries as [|entry rest IH]; intros latest Hin.
  - reflexivity.
  - simpl. unfold bind.
    rewrite (resumeStep_pickStep latest entry) by (apply Hin; now left).
    apply IH. intros e He. apply Hin. now right.
Qed.

(** What [resumeLatestSession] does there. *)
Lemma resumeLatestSession_run :
  resumeLatestSession w
  = match fst (fold_left pickStep d (None, 0)) with
    | Some latestFile =>
        match assoc latestFile d with
        | Some (RegularFile _ text) =>
            (Returned (Some text),
             setTerminal (terminal w ++ [ResumedFile (SESSION_DIR w +:+ "/" +:+ latestFile)]) w)
        | _ =>
            (Returned None,
             setTerminal
               (terminal w ++ [ResumeFailed (IoError "readTextFile"
                                               (SESSION_DIR w +:+ "/" +:+ latestFile))]) w)
        end
    | None => (Returned None, setTerminal (terminal w ++ [NoSessionFiles]) w)
    end.
Proof.
  unfold resumeLatestSession, readDir. run. rewrite directory.
  rewrite (forEach_resumeStep d) by auto.
  destruct (fst (fold_left pickStep d (None, 0))) as [latestFile|]; [|reflexivity].
  unfold readTextFile. rewrite directory.
  now destruct (assoc latestFile d) as [[mtime text|]|].
Qed.

End Directory.

(** C7 (amended). In a session directory, ResumeLatest picks among the
    [.json] files whose modification time is available and later than the
    epoch: it hands back the text of one of them whose modification time no
    session file exceeds.  When there is no such file -- in particular when
    the directory holds no session file at all -- it reports that no
    session was found, raises nothing, and returns the history unchanged. *)
Theorem resumeLatest_picks_latest_dated_file (w : World) (d : list (string * Node))
    (messages : History) :
  sessionDir w = Some d ->
  NoDup (map fst d) ->
  (List.filter datedSessionFile d <> [] ->
     exists n t text,
       In (n, RegularFile (Some t) text) d
       /\ isSessionFile (n, RegularFile (Some t) text) = true
       /\ 0 < t
       /\ (forall entry t', In entry d -> isSessionFile entry = true ->
             mtimeOf (snd entry) = Some t' -> t' <= t)
       /\ resumeLatestSession w
          = (Returned (Some text),
             setTerminal (terminal w ++ [ResumedFile (SESSION_DIR w +:+ "/" +:+ n)]) w)
       /\ (forall r, text = SessionJson r ->
             fst (handleSlashCommand (Bare ResumeLatest) messages w)
             = Returned (map Plain (srMessages r))))
  /\ (List.filter datedSessionFile d = [] ->
        exists w',
          handleSlashCommand (Bare ResumeLatest) messages w = (Returned messages, w')
          /\ terminal w' = terminal w ++ [NoSessionFiles; NoSessionToResume]
          /\ sessionDir w' = sessionDir w)
  /\ (sessionFiles d = [] -> List.filter datedSessionFile d = []).
Proof.
  intros Hd Hnd. split; [|split].
  - intros Hsome. destruct (dated_file_is_picked d Hsome) as [n Hn].
    pose proof (pick_over_directory d) as (_ & Hbound & Hfile).
    rewrite Hn in Hfile. destruct Hfile as (Hlt & text & Hin & Hsf).
    exists n, (snd (fold_left pickStep d (None, 0))), text.
    repeat (split; [assumption|]).
    assert (Hrun : resumeLatestSession w
                   = (Returned (Some text),
                      setTerminal (terminal w ++ [ResumedFile (SESSION_DIR w +:+ "/" +:+ n)]) w)).
    { rewrite (resumeLatestSession_run w d Hd Hnd), Hn.
      now rewrite (assoc_NoDup_In n _ d Hnd Hin). }
    split; [exact Hrun|].
    intros r ->. simpl. unfold bind at 1. rewrite Hrun. reflexivity.
  - intros Hnone. simpl. unfold bind at 1.
    rewrite (resumeLatestSession_run w d Hd Hnd), (no_dated_file_no_pick d Hnone).
    run. eexists. split; [reflexivity|]. simpl. split; [|reflexivity].
    now rewrite <- app_assoc.
  - apply no_session_file_no_dated_file.
Qed.

Lemma resumeLatest_picks_latest_dated_file_witness :
  let older := RegularFile (Some 1600000000000)
                 (SessionJson (mkRecord "gpt-4" [mkStored "human" "old"] "2020-09-13T12:26:40.000Z")) in
  let newer := RegularFile (Some 1700000000000)
                 (SessionJson (mkRecord "claude-3" [mkStored "human" "new"] "2023-11-14T22:13:20.000Z")) in
  let d := [("a.json", older); ("notes.txt", newer); ("b.json", newer); ("sub.json", NotAFile)] in
  let w := worldWith (Some d) true in
  fst (resumeLatestSession w)
  = Returned (Some (SessionJson (mkRecord "claude-3" [mkStored "human" "new"]
                                          "2023-11-14T22:13:20.000Z")))
  /\ exists n t text,
       In (n, RegularFile (Some t) text) d
       /\ isSessionFile (n, RegularFile (Some t) text) = true
       /\ 0 < t
       /\ (forall entry t', In entry d -> isSessionFile entry = true ->
             mtimeOf (snd entry) = Some t' -> t' <= t)
       /\ resumeLatestSession w
          = (Returned (Some text),
             setTerminal (terminal w ++ [ResumedFile (SESSION_DIR w +:+ "/" +:+ n)]) w)
       /\ (forall r, text = SessionJson r ->
             fst (handleSlashCommand (Bare ResumeLatest) [] w)
             = Returned (map Plain (srMessages r))).
Proof.
  cbv zeta. split; [reflexivity|].
  refine (proj1 (resumeLatest_picks_latest_dated_file
                   (worldWith (Some _) true) _ [] eq_refl _) _).
  - repeat (apply NoDup_cons; split; [vm_compute; intros H; inversion H; subst;
      repeat match goal with
             | H : _ ∈ _ |- _ => inversion H; clear H; subst
             end|]).
    apply NoDup_nil. exact I.
  - vm_compute. discriminate.
Defined.

(** C7 as stated fails on a session file dated at the epoch: it is the only
    session file, hence the one with the greatest modification time, yet
    the loop starts from time [0] and asks for a strictly later one, so
    ResumeLatest reports that there is no session. *)
Lemma resumeLatest_ignores_epoch_file :
  ~ ResumePicksGreatestOfAll
      (worldWith (Some [("old.json",
                         RegularFile (Some 0)
                           (SessionJson (mkRecord "gpt-4" [mkStored "human" "hi"]
                                                  "1970-01-01T00:00:00.000Z")))]) true).
Proof.
  intros Hclaim.
  destruct (Hclaim _ eq_refl) as (n & mtime & text & _ & _ & Hrun).
  - discriminate.
  - discriminate Hrun.
Qed.

(** ** Model table *)

Section Resolution.
Import Model.

Variable table : list (string * (Params -> CloseModel)).
Variable identifier : string.

(** [resolveIn] finds the rule that "first match wins" selects. *)
Lemma resolveIn_Selects (strategy : Params -> CloseModel) :
  resolveIn table identifier = Some strategy ->
  exists i, Selects table identifier i strategy.
Proof.
  induction table as [|[pattern s] rest IH]; simpl; [discriminate|].
  destruct (regexTest pattern identifier) eqn:Htest.
  - intros [= <-]. exists 0%nat. split; [exists pattern; auto | intros j rule Hj; lia].
  - intros Hrest. destruct (IH Hrest) as (i & (p & Hi & Hp) & Hbefore).
    exists (S i). split; [exists p; auto|].
    intros [|j] rule Hj Hrule; simpl in Hrule.
    + now injection Hrule as <-.
    + apply (Hbefore j); [lia | assumption].
Qed.

Lemma Selects_resolveIn (i : nat) (strategy : Params -> CloseModel) :
  Selects table identifier i strategy ->
  resolveIn table identifier = Some strategy.
Proof.
  revert i. induction table as [|[pattern s] rest IH]; intros i ((p & Hi & Hp) & Hbefore).
  - discriminate Hi.
  - simpl. destruct i as [|i]; simpl in Hi.
    + injection Hi as -> ->. now rewrite Hp.
    + pose proof (Hbefore 0%nat (pattern, s) ltac:(lia) eq_refl) as Hhead.
      simpl in Hhead. rewrite Hhead.
      apply (IH i). split; [exists p; auto|].
      intros j rule Hj Hrule. apply (Hbefore (S j)); [lia | assumption].
Qed.

(** One identifier, one rule. *)
Lemma Selects_deterministic (i j : nat) (s1 s2 : Params -> CloseModel) :
  Selects table identifier i s1 -> Selects table identifier j s2 ->
  i = j /\ s1 = s2.
Proof.
  intros ((p1 & Hi & Hp1) & Hbefore1) ((p2 & Hj & Hp2) & Hbefore2).
  assert (Hij : i = j).
  { destruct (Nat.lt_trichotomy i j) as [Hlt | [Heq | Hgt]]; [|assumption|].
    - specialize (Hbefore2 i _ Hlt Hi). simpl in Hbefore2. congruence.
    - specialize (Hbefore1 j _ Hgt Hj). simpl in Hbefore1. congruence. }
  subst j. split; [reflexivity | congruence].
Qed.

End Resolution.

(** C4. Resolution is a function of the identifier: the rule selected for
    an identifier is unique and is the one [resolveModel] returns.  "gpt-4"
    selects the generic OpenAI strategy, which forwards the maximum of
    output tokens; "o1-preview" selects the o-series strategy, which does
    not; "azure-mydeploy" selects the Azure strategy, whose deployment name
    is "mydeploy". *)
Theorem model_resolution_deterministic (identifier : string) :
  (forall i j s1 s2,
      Model.Selects Model.modelMap identifier i s1 ->
      Model.Selects Model.modelMap identifier j s2 -> i = j /\ s1 = s2)
  /\ (forall s, Model.resolveModel identifier = Some s
                <-> exists i, Model.Selects Model.modelMap identifier i s)
  /\ Model.resolveModel "gpt-4" = Some Model.createOpenAIInstance
  /\ (forall params, Model.forwardedMaxTokens (Model.createOpenAIInstance params)
                     = Some (Model.maxTokens params))
  /\ Model.resolveModel "o1-preview" = Some Model.createOpenAIOModelInstance
  /\ (forall params, Model.forwardedMaxTokens (Model.createOpenAIOModelInstance params) = None)
  /\ Model.resolveModel "azure-mydeploy" = Some Model.createAzureOpenAIInstance
  /\ (forall temperature maxTokens apiKey apiVersion endpoint,
        Model.createAzureOpenAIInstance
          (Model.mkParams "azure-mydeploy" temperature maxTokens apiKey apiVersion endpoint)
        = Model.AzureChatOpenAI apiKey apiVersion endpoint "mydeploy" temperature
                                (Some maxTokens)).
Proof.
  split; [|split; [|repeat split]].
  - intros i j s1 s2. apply Selects_deterministic.
  - intros s. split.
    + apply resolveIn_Selects.
    + intros [i Hi]. now apply (Selects_resolveIn _ _ i).
Qed.

(* ===================================================================== *)
(** * Part III: further properties of the sources *)
(* ===================================================================== *)

(** ** The argument of a command ([newSlashCommand]) *)

Lemma trimEnd_nonspace_prefix (s : string) :
  Js.trimEnd s = Js.takeNonSpace s +:+ Js.trimEnd (dropNonSpace s).
Proof.
  induction s as [|c s IH]; [reflexivity|].
  cbn [Js.takeNonSpace dropNonSpace].
  destruct (Js.isWhitespace c) eqn:Hc; [reflexivity|].
  rewrite trimEnd_cons_nonspace by assumption. now rewrite IH.
Qed.

Lemma splitGo_nonspace_prefix (s x tok : string) :
  Js.splitGo tok false (Js.takeNonSpace s +:+ x)
  = Js.splitGo (tok +:+ Js.takeNonSpace s) false x.
Proof.
  revert tok. induction s as [|c s IH]; intros tok.
  - cbn [Js.takeNonSpace]. now rewrite append_nil_r.
  - cbn [Js.takeNonSpace]. destruct (Js.isWhitespace c) eqn:Hc.
    + now rewrite append_nil_r.
    + rewrite append_cons. cbn [Js.splitGo]. rewrite Hc, IH.
      now rewrite append_assoc.
Qed.

Lemma dropNonSpace_shape (s : string) :
  dropNonSpace s = ""
  \/ exists c rest, dropNonSpace s = String c rest /\ Js.isWhitespace c = true.
Proof.
  induction s as [|c s IH]; [now left|].
  cbn [dropNonSpace]. destruct (Js.isWhitespace c) eqn:Hc; [right; eauto | exact IH].
Qed.

Lemma trimEnd_empty_trimStart (s : string) : Js.trimEnd s = "" -> Js.trimStart s = "".
Proof.
  induction s as [|c s IH]; [reflexivity|]. simpl.
  destruct (Js.trimEnd s) eqn:Hs; [|discriminate].
  destruct (Js.isWhitespace c); [intros _; now apply IH | discriminate].
Qed.

(** After a separator, the next piece of a right-trimmed string that is not
    blank is its first token, and that token is not empty. *)
Lemma splitGo_after_separator (s : string) :
  Js.trimEnd s <> "" ->
  Js.splitGo "" true (Js.trimEnd s) !! 0%nat = Some (Js.takeNonSpace (Js.trimStart s))
  /\ Js.truthy (Js.takeNonSpace (Js.trimStart s)) = true.
Proof.
  induction s as [|c s IH]; [intros H; now contradiction H|].
  destruct (Js.isWhitespace c) eqn:Hc.
  - intros Hne. simpl in Hne |- *. rewrite Hc in Hne |- *.
    destruct (Js.trimEnd s) as [|c' t] eqn:Hs; [now contradiction Hne|].
    cbn [Js.splitGo]. rewrite Hc. apply IH. discriminate.
  - intros _. rewrite trimEnd_cons_nonspace by assumption.
    cbn [Js.splitGo Js.trimStart]. rewrite Hc.
    cbn [Js.takeNonSpace]. rewrite Hc.
    rewrite splitGo_head. split; reflexivity.
Qed.

(** [inputParts[1]] is the second token, when there is one. *)
Lemma inputParts_second (input : string) :
  Js.splitWhitespace (Js.trim input) !! 1%nat
  = if Js.truthy (secondToken input) then Some (secondToken input) else None.
Proof.
  unfold Js.splitWhitespace, Js.trim, secondToken.
  set (s := Js.trimStart input).
  rewrite (trimEnd_nonspace_prefix s), splitGo_nonspace_prefix.
  destruct (dropNonSpace_shape s) as [-> | (c & rest & -> & Hc)]; [reflexivity|].
  simpl Js.trimStart. rewrite Hc.
  simpl Js.trimEnd. rewrite Hc.
  destruct (Js.trimEnd rest) as [|c' t] eqn:Hrest.
  - rewrite (trimEnd_empty_trimStart rest Hrest). reflexivity.
  - destruct (splitGo_after_separator rest) as [Hhead Htruthy];
      [rewrite Hrest; discriminate|].
    rewrite <- Hrest. cbn [Js.splitGo]. rewrite Hc.
    change ((?x :: ?l) !! 1%nat) with (l !! 0%nat).
    now rewrite Hhead, Htruthy.
Qed.

Lemma length_gt_one_lookup {A : Type} (l : list A) :
  (1 <? Z.of_nat (length l)) = match l !! 1%nat with Some _ => true | None => false end.
Proof. destruct l as [|a [|b l]]; try reflexivity. simpl length. apply Z.ltb_lt. lia. Qed.

(** X1. For an input whose first token is in the command table, the
    classifier returns the command of that token; File, Save, Load and
    Delete carry the second token as their argument when there is one, any
    further token is dropped, and no other command ever carries one. *)
Theorem newSlashCommand_argument (input : string) (command : Command) :
  assoc (firstToken input) commandMap = Some command ->
  newSlashCommand input
  = inr (IsCommand (if takesPath command && Js.truthy (secondToken input)
                    then WithPath command (secondToken input)
                    else Bare command)).
Proof.
  intros Hcmd. unfold newSlashCommand.
  pose proof (input0_firstToken input) as H0. unfold input0 in H0. rewrite H0.
  unfold getProperty. rewrite Hcmd.
  rewrite length_gt_one_lookup, inputParts_second.
  destruct (takesPath command); [|reflexivity].
  now destruct (Js.truthy (secondToken input)).
Qed.

Lemma newSlashCommand_argument_witness :
  assoc (firstToken "  /save  my session ") commandMap = Some Save
  /\ newSlashCommand "  /save  my session " = inr (IsCommand (WithPath Save "my")).
Proof.
  split; [reflexivity|].
  exact (newSlashCommand_argument "  /save  my session " Save eq_refl).
Defined.

(** X2. A blank input -- empty, or white space only -- is rejected with
    the empty token. *)
Theorem newSlashCommand_blank_input (input : string) :
  Js.trim input = "" ->
  newSlashCommand input = inl (InvalidCommand "").
Proof.
  intros Hblank.
  assert (Htok : firstToken input = "").
  { unfold firstToken. unfold Js.trim in Hblank.
    apply trimEnd_empty_trimStart in Hblank.
    destruct (Js.trimStart input) as [|c s] eqn:Hs; [reflexivity|].
    assert (Hc : Js.isWhitespace c = false).
    { clear Hblank. revert Hs. induction input as [|a input IH]; [discriminate|].
      simpl. destruct (Js.isWhitespace a) eqn:Ha; [exact IH|].
      intros [= <- _]. exact Ha. }
    simpl in Hblank. rewrite Hc in Hblank. discriminate. }
  rewrite newSlashCommand_ordinary_token_fails; rewrite Htok; [reflexivity| |];
    vm_compute; intros H; repeat (destruct H as [H|H]; [discriminate H|]); exact H.
Qed.

Lemma newSlashCommand_blank_input_witness :
  Js.trim (String "009" "  ") = ""
  /\ newSlashCommand (String "009" "  ") = inl (InvalidCommand "").
Proof.
  split; [reflexivity|].
  exact (newSlashCommand_blank_input (String "009" "  ") eq_refl).
Defined.

(** ** At-mentions ([extractAtModel], [handleAtCommand], [getMessageFromHistory]) *)

Lemma takeNonSpace_dropNonSpace (s : string) : Js.takeNonSpace s +:+ dropNonSpace s = s.
Proof.
  induction s as [|c s IH]; [reflexivity|].
  cbn [Js.takeNonSpace dropNonSpace].
  destruct (Js.isWhitespace c); [reflexivity|].
  rewrite append_cons. now rewrite IH.
Qed.

Lemma takeNonSpace_no_whitespace (s : string) : hasWhitespace (Js.takeNonSpace s) = false.
Proof.
  induction s as [|c s IH]; [reflexivity|].
  cbn [Js.takeNonSpace]. destruct (Js.isWhitespace c) eqn:Hc; [reflexivity|].
  cbn [hasWhitespace]. now rewrite Hc, IH.
Qed.

Lemma drop_length_append (a b : string) : Js.drop (String.length a) (a +:+ b) = b.
Proof. induction a as [|c a IH]; [now destruct b | exact IH]. Qed.

Lemma startsWith_append (p x : string) : Js.startsWith p (p +:+ x) = true.
Proof.
  induction p as [|c p IH]; [reflexivity|].
  rewrite append_cons. cbn [Js.startsWith]. now rewrite Ascii.eqb_refl.
Qed.

Lemma startsWith_split (p s : string) :
  Js.startsWith p s = true -> s = p +:+ Js.drop (String.length p) s.
Proof.
  revert s. induction p as [|c p IH]; intros s; [reflexivity|].
  destruct s as [|a s]; [discriminate|]. cbn [Js.startsWith].
  destruct (Ascii.eqb_spec c a) as [->|]; [|discriminate].
  intros H. rewrite append_cons. cbn [String.length Js.drop]. now rewrite <- (IH s H).
Qed.

(** X3. [extractAtModel] either finds no mention -- the input does not
    start with an at sign followed by a character that is no white space --
    and then hands the input back untouched with an empty model; or it
    splits the input into the at sign, a non-empty model identifier free of
    white space, and a remainder that is empty or starts with white space,
    the message being the trimmed remainder. *)
Theorem extractAtModel_decomposes (input : string) :
  (matchAtModel input = None
   /\ (Js.startsWith "@" input = false
       \/ Js.truthy (Js.takeNonSpace (Js.drop 1 input)) = false)
   /\ extractAtModel input = mkModelMessage "" input)
  \/ (exists model rest,
        input = "@" +:+ model +:+ rest
        /\ Js.truthy model = true
        /\ hasWhitespace model = false
        /\ (rest = "" \/ exists c rest', rest = String c rest' /\ Js.isWhitespace c = true)
        /\ extractAtModel input = mkModelMessage model (Js.trim rest)).
Proof.
  unfold extractAtModel, matchAtModel.
  destruct input as [|a tail]; [left; auto|].
  destruct (Ascii.eqb_spec "@" a) as [<-|Hne].
  - destruct (Js.takeNonSpace tail) as [|c run] eqn:Hrun.
    + left. split; [reflexivity|]. split; [|reflexivity].
      right. cbn [Js.drop]. now rewrite Hrun.
    + right. exists (String c run), (dropNonSpace tail).
      split; [|split; [reflexivity|split; [|split]]].
      * rewrite <- Hrun. change ("@" +:+ ?x) with (String "@" x).
        now rewrite takeNonSpace_dropNonSpace.
      * rewrite <- Hrun. apply takeNonSpace_no_whitespace.
      * destruct (dropNonSpace_shape tail) as [-> | ?]; auto.
      * cbn [Js.drop]. f_equal.
        rewrite <- (takeNonSpace_dropNonSpace tail) at 1. rewrite Hrun.
        change (String.length (String "@" (String c run)))
          with (S (String.length (String c run))).
        cbn [Js.drop]. now rewrite drop_length_append.
  - left. assert (Hstart : Js.startsWith "@" (String a tail) = false).
    { cbn [Js.startsWith]. now destruct (Ascii.eqb_spec "@" a). }
    split; [|split; [now left|]].
    + destruct a as [[] [] [] [] [] [] [] []]; try reflexivity. now contradiction Hne.
    + destruct a as [[] [] [] [] [] [] [] []]; try reflexivity. now contradiction Hne.
Qed.

(** The model of a mention, when there is one, is what follows the at
    sign up to the first white space. *)
Lemma extractAtModel_model (input : string) :
  mmModel (extractAtModel input) = ""
  \/ (Js.truthy (mmModel (extractAtModel input)) = true
      /\ hasWhitespace (mmModel (extractAtModel input)) = false
      /\ Js.startsWith ("@" +:+ mmModel (extractAtModel input)) input = true).
Proof.
  unfold extractAtModel, matchAtModel.
  destruct input as [|a tail]; [now left|].
  destruct (Ascii.eqb_spec "@" a) as [<-|Hne].
  - destruct (Js.takeNonSpace tail) as [|c run] eqn:Hrun; [now left|].
    right. cbn [mmModel Js.drop]. split; [reflexivity|]. split.
    + rewrite <- Hrun. apply takeNonSpace_no_whitespace.
    + rewrite <- (takeNonSpace_dropNonSpace tail). rewrite Hrun.
      change ("@" +:+ ?x) with (String "@" x).
      change (String "@" (String c run +:+ dropNonSpace tail))
        with (String "@" (String c run) +:+ dropNonSpace tail).
      apply startsWith_append.
  - left. destruct a as [[] [] [] [] [] [] [] []]; try reflexivity. now contradiction Hne.
Qed.

(** X4. The model [handleAtCommand] answers with is the caller's default or
    a non-empty identifier free of white space that follows the at sign at
    the start of the message.  A message that is no at-command comes back as
    it is with the default model, and whenever the message is no at-command
    or has content of its own, the history plays no part in the answer. *)
Theorem handleAtCommand_answer (humanMessage : Entry) (messages : History)
    (model : string) :
  (mmModel (handleAtCommand humanMessage messages model) = model
   \/ (Js.truthy (mmModel (handleAtCommand humanMessage messages model)) = true
       /\ hasWhitespace (mmModel (handleAtCommand humanMessage messages model)) = false
       /\ Js.startsWith ("@" +:+ mmModel (handleAtCommand humanMessage messages model))
                        (entryContent humanMessage) = true))
  /\ (isAtCommand humanMessage = false ->
        handleAtCommand humanMessage messages model
        = mkModelMessage model (entryContent humanMessage))
  /\ (isAtCommand humanMessage = false
      \/ Js.truthy (mmMessage (extractAtModel (entryContent humanMessage))) = true ->
        forall others,
          handleAtCommand humanMessage others model
          = handleAtCommand humanMessage messages model).
Proof.
  split; [|split].
  - unfold handleAtCommand. destruct (isAtCommand humanMessage); [|now left].
    cbn [negb mmModel]. cbv zeta.
    destruct (extractAtModel_model (entryContent humanMessage))
      as [Hnone | (Htruthy & Hws & Hstart)].
    + left. rewrite Hnone. reflexivity.
    + right. unfold orElse. rewrite Htruthy. cbn [default from_option id].
      now repeat split.
  - intros Hat. unfold handleAtCommand. now rewrite Hat.
  - intros Hcase others. unfold handleAtCommand.
    destruct (isAtCommand humanMessage); [|reflexivity]. cbn [negb]. cbv zeta.
    destruct Hcase as [Hat | Hcontent]; [discriminate|].
    assert (Hor : forall b, orElse (Some (mmMessage (extractAtModel (entryContent humanMessage)))) b
                            = Some (mmMessage (extractAtModel (entryContent humanMessage))))
      by (intros b; unfold orElse; now rewrite Hcontent).
    now rewrite !Hor.
Qed.

(** X5. [getMessageFromHistory] answers with the text of the entry at
    position [length + index], and only for a position from [1] to
    [length - 1]: an index that is not negative finds nothing, and no index
    reaches the first entry of the history. *)
Theorem getMessageFromHistory_position (messages : History) (index : Z) (text : string) :
  getMessageFromHistory messages index = Some text
  <-> exists (p : nat) (e : Entry),
        (1 <= p < length messages)%nat
        /\ Z.of_nat p = Z.of_nat (length messages) + index
        /\ messages !! p = Some e
        /\ text = entryContent e.
Proof.
  unfold getMessageFromHistory, at_. split.
  - destruct (Z.abs index <? Z.of_nat (length messages)) eqn:Habs; [|discriminate].
    apply Z.ltb_lt in Habs.
    destruct (Z.of_nat (length messages) + index <? 0) eqn:Hneg; [discriminate|].
    apply Z.ltb_ge in Hneg.
    destruct (messages !! Z.to_nat (Z.of_nat (length messages) + index)) as [e|] eqn:He;
      [|discriminate].
    intros [= <-]. apply lookup_lt_Some in He as Hlt.
    exists (Z.to_nat (Z.of_nat (length messages) + index)), e.
    repeat split; try assumption; lia.
  - intros (p & e & [Hp1 Hp2] & Hpos & He & ->).
    assert (Habs : (Z.abs index <? Z.of_nat (length messages)) = true)
      by (apply Z.ltb_lt; lia).
    assert (Hneg : (Z.of_nat (length messages) + index <? 0) = false)
      by (apply Z.ltb_ge; lia).
    rewrite Habs, Hneg. rewrite <- Hpos, Nat2Z.id, He. reflexivity.
Qed.

(** ** Files of the session directory *)

Lemma assoc_In {A : Type} (key : string) (table : list (string * A)) (v : A) :
  assoc key table = Some v -> In (key, v) table.
Proof.
  induction table as [|[k a] rest IH]; simpl; [discriminate|].
  destruct (String.eqb_spec k key) as [->|Hne].
  - intros [= ->]. now left.
  - intros H. right. now apply IH.
Qed.

Lemma assoc_putEntry_other (f n : string) (node : Node) (d : list (string * Node)) :
  f <> n -> assoc f (putEntry n node d) = assoc f d.
Proof.
  intros Hne. induction d as [|[k v] rest IH]; simpl.
  - destruct (String.eqb_spec n f); [congruence | reflexivity].
  - destruct (String.eqb_spec k n) as [->|Hkn]; simpl.
    + destruct (String.eqb_spec n f); [congruence | reflexivity].
    + destruct (String.eqb_spec k f); [reflexivity | exact IH].
Qed.

Lemma In_putEntry (n : string) (node : Node) (d : list (string * Node))
    (entry : string * Node) :
  In entry (putEntry n node d) -> entry = (n, node) \/ In entry d.
Proof.
  induction d as [|[k v] rest IH]; simpl.
  - intros [<- | []]. now left.
  - destruct (String.eqb_spec k n) as [->|Hkn]; simpl.
    + intros [<- | Hin]; auto.
    + intros [<- | Hin]; auto. destruct (IH Hin); auto.
Qed.

Lemma names_putEntry (n : string) (node : Node) (d : list (string * Node)) (k : string) :
  In k (map fst (putEntry n node d)) -> k = n \/ In k (map fst d).
Proof.
  intros Hin. apply in_map_iff in Hin as ([k' v] & <- & Hin).
  destruct (In_putEntry n node d _ Hin) as [[= -> _] | Hd]; [now left|].
  right. apply in_map_iff. now exists (k', v).
Qed.

Lemma NoDup_putEntry (n : string) (node : Node) (d : list (string * Node)) :
  NoDup (map fst d) -> NoDup (map fst (putEntry n node d)).
Proof.
  induction d as [|[k v] rest IH]; simpl; intros Hnd.
  - apply NoDup_cons. split; [intros H; inversion H | constructor].
  - apply NoDup_cons in Hnd as [Hk Hrest].
    destruct (String.eqb_spec k n) as [->|Hkn]; simpl.
    + apply NoDup_cons. now split.
    + apply NoDup_cons. split; [|now apply IH].
      intros Hin%list_elem_of_In. apply names_putEntry in Hin as [-> | Hin]; [congruence|].
      apply Hk. now apply list_elem_of_In.
Qed.

Lemma assoc_removeEntry_other (f n : string) (d : list (string * Node)) :
  f <> n -> assoc f (removeEntry n d) = assoc f d.
Proof.
  intros Hne. induction d as [|[k v] rest IH]; simpl; [reflexivity|].
  destruct (String.eqb_spec k n) as [->|Hkn]; simpl.
  - destruct (String.eqb_spec n f); [congruence | reflexivity].
  - destruct (String.eqb_spec k f); [reflexivity | exact IH].
Qed.

Lemma assoc_not_named {A : Type} (n : string) (d : list (string * A)) :
  ~ In n (map fst d) -> assoc n d = None.
Proof. apply assoc_None_notin. Qed.

Lemma assoc_removeEntry (n : string) (d : list (string * Node)) :
  NoDup (map fst d) -> assoc n (removeEntry n d) = None.
Proof.
  induction d as [|[k v] rest IH]; simpl; intros Hnd; [reflexivity|].
  apply NoDup_cons in Hnd as [Hk Hrest].
  destruct (String.eqb_spec k n) as [->|Hkn]; simpl.
  - apply assoc_not_named. intros Hin. apply Hk. now apply list_elem_of_In.
  - destruct (String.eqb_spec k n); [congruence | now apply IH].
Qed.

Lemma reverse_append (a b : string) :
  Js.reverse (a +:+ b) = Js.reverse b +:+ Js.reverse a.
Proof.
  induction a as [|c a IH].
  - change ("" +:+ b) with b. cbn [Js.reverse]. now rewrite append_nil_r.
  - rewrite append_cons. cbn [Js.reverse]. now rewrite IH, append_assoc.
Qed.

Lemma endsWith_append (a p : string) : Js.endsWith p (a +:+ p) = true.
Proof. unfold Js.endsWith. rewrite reverse_append. apply startsWith_append. Qed.

Lemma fileOf_is_session_file (name : string) (mtime : option Z) (text : FileText) :
  isSessionFile (fileOf name, RegularFile mtime text) = true.
Proof. unfold isSessionFile, fileOf. simpl. apply endsWith_append. Qed.

(** [".json"] cannot begin inside a string it does not occur in and end in
    a copy of itself that follows. *)
Lemma json_no_straddle (x rest : string) (c : ascii) :
  occursIn ".json" (String c x) = false ->
  Js.startsWith ".json" (String c x +:+ ".json" +:+ rest) = false.
Proof.
  intros Hocc. simpl in Hocc. apply orb_false_iff in Hocc as [Hstart _].
  revert Hstart.
  destruct x as [|c1 [|c2 [|c3 [|c4 x]]]]; rewrite ?append_cons;
    cbn [Js.startsWith String.append];
    repeat match goal with
           | |- context [Ascii.eqb ?a ?b] =>
               destruct (Ascii.eqb_spec a b); subst; try reflexivity; try discriminate
           end; auto.
Qed.

Lemma removeFirst_json (a rest : string) :
  occursIn ".json" a = false ->
  removeFirst ".json" (a +:+ ".json" +:+ rest) = a +:+ rest.
Proof.
  induction a as [|c a IH]; intros Hocc.
  - reflexivity.
  - pose proof (json_no_straddle a rest c Hocc) as Hno.
    rewrite append_cons in Hno |- *.
    set (tail := a +:+ ".json" +:+ rest) in *.
    cbn [removeFirst]. rewrite Hno. subst tail.
    rewrite IH; [reflexivity|].
    simpl in Hocc. now apply orb_false_iff in Hocc as [_ Hocc].
Qed.

(** ** Save, load, list and delete ([session.ts]) *)

Lemma mapM_storeTyped_run (messages : History) (w : World) :
  mapM storeTyped messages w
  = match instancesOf messages with
    | Some ms => (Returned (map (fun m => mkStored (_getType m) (content m)) ms), w)
    | None => (Thrown (TypeError "m._getType is not a function"), w)
    end.
Proof.
  induction messages as [|[m|r] rest IH]; try reflexivity.
  simpl. run. rewrite IH. now destruct (instancesOf rest).
Qed.

Lemma instancesOf_Some (messages : History) (ms : list BaseMessage) :
  instancesOf messages = Some ms -> messages = map Inst ms.
Proof.
  revert ms. induction messages as [|[m|r] rest IH]; simpl; intros ms.
  - now intros [= <-].
  - destruct (instancesOf rest) as [ms'|]; [|discriminate].
    intros [= <-]. simpl. now rewrite (IH ms').
  - discriminate.
Qed.

(** What a successful [saveSession] did: the directory was writable, and
    the one change to it is the file of that name. *)
Lemma saveSession_success (name : string) (messages : History) (model : string)
    (w w' : World) :
  saveSession name messages model w = (Returned tt, w') ->
  exists ms mtime stamp,
    messages = map Inst ms
    /\ writable w = true /\ writable w' = true
    /\ sessionDir w'
       = Some (putEntry (fileOf name)
                 (RegularFile mtime
                    (SessionJson (mkRecord model
                       (map (fun m => mkStored (_getType m) (content m)) ms) stamp)))
                 (default [] (sessionDir w)))
    /\ terminal w' = terminal w /\ defaultModel w' = defaultModel w
    /\ modelStack w' = modelStack w.
Proof.
  unfold saveSession, ensureDir. run.
  destruct (sessionDir w) as [d|] eqn:Hd; [|destruct (writable w) eqn:Hw];
    rewrite ?mapM_storeTyped_run;
    try (destruct (instancesOf messages) as [ms|] eqn:Hms);
    unfold writeTextFile; simpl; rewrite ?Hd;
    repeat case_match; intros Hrun; simplify_eq; simpl;
    exists ms; eexists _, _;
    (split; [now apply instancesOf_Some|]);
    repeat split; try reflexivity;
    match goal with
    | H : negb _ || _ = false |- _ =>
        apply orb_false_iff in H as [H _]; now apply negb_false_iff in H
    | _ => idtac
    end; assumption.
Qed.

(** X6. [saveSession] cannot store a history that holds a plain object, as
    the history returned by [/resume-latest] does: [/save] then throws --
    the type error of the missing [_getType], unless the directory could
    not even be created -- prints nothing and writes no file. *)
Theorem save_rejects_plain_objects (name : string) (messages : History) (w : World) :
  instancesOf messages = None ->
  exists e w',
    handleSlashCommand (WithPath Save name) messages w = (Thrown e, w')
    /\ terminal w' = terminal w
    /\ (forall file, fileAt w' file = fileAt w file)
    /\ (sessionDir w <> None \/ writable w = true ->
        e = TypeError "m._getType is not a function").
Proof.
  intros Hplain. simpl. unfold saveSession, ensureDir. run.
  destruct (sessionDir w) as [d|] eqn:Hd; [|destruct (writable w) eqn:Hw];
    rewrite ?mapM_storeTyped_run, ?Hplain; eexists _, _;
    (split; [reflexivity|]); repeat split; try reflexivity;
    unfold fileAt; simpl; rewrite ?Hd; try reflexivity.
  intros [H | H]; [now contradiction H | discriminate H].
Qed.

Lemma save_rejects_plain_objects_witness :
  instancesOf [Plain (mkStored "human" "hi")] = None
  /\ exists e w',
       handleSlashCommand (WithPath Save "s") [Plain (mkStored "human" "hi")]
         (worldWith (Some []) true) = (Thrown e, w')
       /\ terminal w' = terminal (worldWith (Some []) true)
       /\ (forall file, fileAt w' file = fileAt (worldWith (Some []) true) file)
       /\ (sessionDir (worldWith (Some []) true) <> None
           \/ writable (worldWith (Some []) true) = true ->
           e = TypeError "m._getType is not a function").
Proof.
  split; [reflexivity|].
  exact (save_rejects_plain_objects "s" [Plain (mkStored "human" "hi")]
           (worldWith (Some []) true) eq_refl).
Defined.

(** A non-empty history that [/resume-latest] returned is such a history. *)
Lemma resumed_history_not_instances (r : SessionRecord) :
  srMessages r <> [] -> instancesOf (map Plain (srMessages r)) = None.
Proof. destruct (srMessages r); [intros H; now contradiction H | reflexivity]. Qed.




(** X9. When [/delete] returns, it hands back the history it was given and
    has printed its notice; the file of that name is gone, every other
    file is as it was, and loading the name now fails. *)
Theorem delete_removes_the_session (name : string) (messages h : History) (w w' : World) :
  distinctNames w ->
  handleSlashCommand (WithPath Delete name) messages w = (Returned h, w') ->
  h = messages
  /\ terminal w' = terminal w ++ [SessionDeleted name]
  /\ fileAt w' (fileOf name) = None
  /\ (forall file, file <> fileOf name -> fileAt w' file = fileAt w file)
  /\ fst (loadSession name w')
     = Thrown (IoError "readTextFile" (SESSION_DIR w' +:+ "/" +:+ fileOf name)).
Proof.
  intros Hnames. simpl. unfold deleteSession, remove. run.
  destruct (sessionDir w) as [d|] eqn:Hd; [|discriminate].
  destruct (assoc (fileOf name) d) as [[mtime text|]|] eqn:Hfile; try discriminate.
  destruct (writable w); [|discriminate].
  intros [= <- <-].
  assert (Hgone : assoc (fileOf name) (removeEntry (fileOf name) d) = None)
    by (apply assoc_removeEntry; now apply Hnames).
  repeat split.
  - unfold fileAt. simpl. exact Hgone.
  - intros file Hne. unfold fileAt. simpl. rewrite Hd.
    now apply assoc_removeEntry_other.
  - unfold loadSession, readTextFile. run. now rewrite Hgone.
Qed.

Lemma delete_removes_the_session_witness :
  let w := snd (saveSession "test" [Inst (HumanMessage "hi")] "gpt-4"
                  (worldWith (Some []) true)) in
  let w' := snd (handleSlashCommand (WithPath Delete "test") [Inst (AIMessage "yo")] w) in
  distinctNames w
  /\ handleSlashCommand (WithPath Delete "test") [Inst (AIMessage "yo")] w
     = (Returned [Inst (AIMessage "yo")], w')
  /\ fileAt w' (fileOf "test") = None.
Proof.
  cbv zeta.
  assert (Hnames : distinctNames
                     (snd (saveSession "test" [Inst (HumanMessage "hi")] "gpt-4"
                             (worldWith (Some []) true)))).
  { intros d [= <-]. apply NoDup_cons. split; [intros H; inversion H | constructor]. }
  split; [exact Hnames|]. split; [reflexivity|].
  exact (proj1 (proj2 (proj2
           (delete_removes_the_session "test" [Inst (AIMessage "yo")] _ _ _
              Hnames eq_refl)))).
Defined.

(** X10. A session that was saved and then deleted is gone, and every
    other file of the directory is as it was before the save; the delete
    that follows a successful save cannot fail. *)
Theorem save_then_delete (name : string) (messages : History) (model : string)
    (w w1 : World) :
  distinctNames w ->
  saveSession name messages model w = (Returned tt, w1) ->
  exists w2,
    deleteSession name w1 = (Returned tt, w2)
    /\ fileAt w2 (fileOf name) = None
    /\ forall file, file <> fileOf name -> fileAt w2 file = fileAt w file.
Proof.
  intros Hnames Hsave.
  destruct (saveSession_success _ _ _ _ _ Hsave)
    as (ms & mtime & stamp & _ & _ & Hw1 & Hd1 & _).
  assert (Hnd : NoDup (map fst (default [] (sessionDir w)))).
  { destruct (sessionDir w) as [d|] eqn:Hd; [now apply Hnames | constructor]. }
  unfold deleteSession, remove. rewrite Hd1, assoc_putEntry, Hw1.
  eexists. split; [reflexivity|]. unfold fileAt. simpl. split.
  - apply assoc_removeEntry. now apply NoDup_putEntry.
  - intros file Hne.
    rewrite assoc_removeEntry_other, assoc_putEntry_other by assumption.
    now destruct (sessionDir w).
Qed.

Lemma save_then_delete_witness :
  let w := worldWith (Some [("keep.json", NotAFile)]) true in
  let w1 := snd (saveSession "test" [Inst (HumanMessage "hi")] "gpt-4" w) in
  distinctNames w
  /\ saveSession "test" [Inst (HumanMessage "hi")] "gpt-4" w = (Returned tt, w1)
  /\ exists w2,
       deleteSession "test" w1 = (Returned tt, w2)
       /\ fileAt w2 (fileOf "test") = None
       /\ forall file, file <> fileOf "test" -> fileAt w2 file = fileAt w file.
Proof.
  cbv zeta.
  assert (Hnames : distinctNames (worldWith (Some [("keep.json", NotAFile)]) true)).
  { intros d [= <-]. apply NoDup_cons. split; [intros H; inversion H | constructor]. }
  split; [exact Hnames|]. split; [reflexivity|].
  exact (save_then_delete "test" [Inst (HumanMessage "hi")] "gpt-4" _ _ Hnames eq_refl).
Defined.



(** ** Autosave ([autoSave]) *)

(** What a successful [autoSave] did. *)
Lemma autoSave_success (messages : History) (model : string) (w w' : World) :
  autoSave messages model w = (Returned tt, w') ->
  writable w = true
  /\ sessionDir w'
     = Some (putEntry (fileOf (autosaveName (clock w (ticks w))))
               (RegularFile (Some (ms (clock w (S (S (ticks w))))))
                  (SessionJson (mkRecord model
                     (map (fun m => mkStored (getMessageType m) (entryContent m)) messages)
                     (iso (clock w (S (ticks w)))))))
               (default [] (sessionDir w)))
  /\ defaultModel w' = defaultModel w /\ modelStack w' = modelStack w
  /\ terminal w' = terminal w /\ home w' = home w.
Proof.
  unfold autoSave, ensureDir, writeTextFile, autosaveName. run.
  destruct (sessionDir w) as [d|] eqn:Hd; [|destruct (writable w) eqn:Hw]; simpl;
    rewrite ?Hd; repeat case_match; intros Hrun; simplify_eq; simpl;
    repeat split; try reflexivity;
    match goal with
    | H : negb _ || _ = false |- _ =>
        apply orb_false_iff in H as [H _]; now apply negb_false_iff in H
    | _ => idtac
    end; assumption.
Qed.

Lemma revive_autosaved (e : Entry) :
  Inst (revive (mkStored (getMessageType e) (entryContent e))) = autoRestored e.
Proof. now destruct e as [[c|c|c|t c]|r]. Qed.

Lemma map_autoRestored_core (messages : History) :
  forallb isCoreEntry messages = true -> map autoRestored messages = messages.
Proof.
  induction messages as [|e rest IH]; [reflexivity|]. simpl.
  intros [He Hrest]%andb_true_iff. unfold autoRestored at 1.
  now rewrite He, IH.
Qed.

(** X12. Loading the file an autosave wrote gives back the model and a
    history of the same length with the same texts in the same order.  The
    autosave stores the role by class: system, human and ai messages come
    back as they were, while a message of any other class and a plain
    object come back as human messages, whatever type they carry. *)
Theorem autosave_then_load (messages : History) (model : string) (w w' : World) :
  autoSave messages model w = (Returned tt, w') ->
  loadSession (autosaveName (clock w (ticks w))) w'
  = (Returned (model, map autoRestored messages), w')
  /\ length (map autoRestored messages) = length messages
  /\ map entryContent (map autoRestored messages) = map entryContent messages
  /\ (forallb isCoreEntry messages = true -> map autoRestored messages = messages).
Proof.
  intros Hsave. destruct (autoSave_success _ _ _ _ Hsave) as (_ & Hd & _).
  split; [|split; [|split]].
  - rewrite (loadSession_record _ w' _ _ _ Hd (assoc_putEntry _ _ _)). simpl.
    do 3 f_equal. rewrite map_map. apply map_ext. apply revive_autosaved.
  - apply length_map.
  - rewrite map_map. apply map_ext. intros e. unfold autoRestored.
    now destruct (isCoreEntry e).
  - apply map_autoRestored_core.
Qed.

Lemma autosave_then_load_witness :
  let w := worldWith (Some []) true in
  let messages := [Inst (SystemMessage "be brief"); Inst (OtherMessage "ai" "chunk");
                   Plain (mkStored "ai" "raw")] in
  let w' := snd (autoSave messages "gpt-4" w) in
  autoSave messages "gpt-4" w = (Returned tt, w')
  /\ loadSession "autosave-2023-11-14T22-13-20-000Z" w'
     = (Returned ("gpt-4", [Inst (SystemMessage "be brief"); Inst (HumanMessage "chunk");
                            Inst (HumanMessage "raw")]), w').
Proof.
  cbv zeta. split; [reflexivity|].
  exact (proj1 (autosave_then_load
                  [Inst (SystemMessage "be brief"); Inst (OtherMessage "ai" "chunk");
                   Plain (mkStored "ai" "raw")] "gpt-4" (worldWith (Some []) true)
                  (snd (autoSave
                          [Inst (SystemMessage "be brief"); Inst (OtherMessage "ai" "chunk");
                           Plain (mkStored "ai" "raw")] "gpt-4" (worldWith (Some []) true)))
                  eq_refl)).
Defined.

(** ** Which file [resumeLatestSession] settles on *)

Lemma EarlierAreOlder_step (seen : list (string * Node)) (latest : option string * Z)
    (entry : string * Node) :
  Latest seen latest -> EarlierAreOlder seen latest ->
  EarlierAreOlder (seen ++ [entry]) (pickStep latest entry).
Proof.
  intros (_ & Hbound & _) Hearlier. unfold pickStep.
  assert (Hkeep : EarlierAreOlder (seen ++ [entry]) latest).
  { unfold EarlierAreOlder in *. destruct (fst latest) as [n|]; [|exact I].
    destruct Hearlier as (pre & text & post & -> & Hpre).
    exists pre, text, (post ++ [entry]). split; [|assumption].
    now rewrite <- app_assoc. }
  destruct (isSessionFile entry) eqn:Hsf; [|exact Hkeep].
  destruct (mtimeOf (snd entry)) as [t|] eqn:Hmt; [|exact Hkeep].
  destruct (snd latest <? t) eqn:Hlt; [|exact Hkeep].
  apply Z.ltb_lt in Hlt. unfold EarlierAreOlder. simpl.
  destruct entry as [n [mtime text|]]; [|discriminate Hsf].
  simpl in Hmt. subst mtime. exists seen, text, []. split; [reflexivity|].
  intros e t' He Hse Ht. specialize (Hbound e t' He Hse Ht). lia.
Qed.

Lemma EarlierAreOlder_fold (entries seen : list (string * Node)) (latest : option string * Z) :
  Latest seen latest -> EarlierAreOlder seen latest ->
  EarlierAreOlder (seen ++ entries) (fold_left pickStep entries latest).
Proof.
  revert seen latest. induction entries as [|entry rest IH]; intros seen latest Hl He.
  - now rewrite app_nil_r.
  - simpl. replace (seen ++ entry :: rest) with ((seen ++ [entry]) ++ rest)
      by now rewrite <- app_assoc.
    apply IH; [now apply Latest_step | now apply EarlierAreOlder_step].
Qed.

(** X13. Among session files of the same, greatest modification time the
    one enumerated first is resumed: every session file listed before the
    one whose text [resumeLatestSession] returns is strictly older, and
    none listed after it is more recent. *)
Theorem resumeLatest_first_of_the_latest (w w1 : World) (d : list (string * Node))
    (text : FileText) :
  sessionDir w = Some d ->
  NoDup (map fst d) ->
  resumeLatestSession w = (Returned (Some text), w1) ->
  exists n t pre post,
    d = pre ++ (n, RegularFile (Some t) text) :: post
    /\ (forall entry t', In entry pre -> isSessionFile entry = true ->
                         mtimeOf (snd entry) = Some t' -> t' < t)
    /\ (forall entry t', In entry post -> isSessionFile entry = true ->
                         mtimeOf (snd entry) = Some t' -> t' <= t).
Proof.
  intros Hd Hnd. rewrite (resumeLatestSession_run w d Hd Hnd).
  pose proof (pick_over_directory d) as (_ & Hbound & _).
  pose proof (EarlierAreOlder_fold d [] (None, 0) Latest_start I) as Hearlier.
  simpl in Hearlier. unfold EarlierAreOlder in Hearlier.
  destruct (fst (fold_left pickStep d (None, 0))) as [n|]; [|discriminate].
  destruct Hearlier as (pre & text0 & post & Hsplit & Hpre).
  assert (Hin : In (n, RegularFile (Some (snd (fold_left pickStep d (None, 0)))) text0) d).
  { rewrite Hsplit at 2. apply in_app_iff. right. now left. }
  rewrite (assoc_NoDup_In n _ d Hnd Hin). intros [= <- _].
  exists n, (snd (fold_left pickStep d (None, 0))), pre, post.
  split; [exact Hsplit|]. split; [exact Hpre|].
  intros e t' He. apply Hbound. rewrite Hsplit. apply in_app_iff. right. now right.
Qed.

Lemma resumeLatest_first_of_the_latest_witness :
  let w := worldWith (Some tiedDirectory) true in
  let text := SessionJson (mkRecord "gpt-4" [mkStored "human" "first"] "t") in
  resumeLatestSession w = (Returned (Some text), snd (resumeLatestSession w))
  /\ exists n t pre post,
       tiedDirectory = pre ++ (n, RegularFile (Some t) text) :: post
       /\ (forall entry t', In entry pre -> isSessionFile entry = true ->
                            mtimeOf (snd entry) = Some t' -> t' < t)
       /\ (forall entry t', In entry post -> isSessionFile entry = true ->
                            mtimeOf (snd entry) = Some t' -> t' <= t).
Proof.
  cbv zeta. split; [reflexivity|].
  apply (resumeLatest_first_of_the_latest
           (worldWith (Some tiedDirectory) true)
           (snd (resumeLatestSession (worldWith (Some tiedDirectory) true)))
           tiedDirectory
           (SessionJson (mkRecord "gpt-4" [mkStored "human" "first"] "t"))
           eq_refl); [|reflexivity].
  repeat (apply NoDup_cons; split; [vm_compute; intros H; inversion H; subst;
    repeat match goal with
           | H : _ ∈ _ |- _ => inversion H; clear H; subst
           end|]).
  apply NoDup_nil. exact I.
Defined.

(** X14. An autosave is what [/resume-latest] restores next, provided the
    clock is past the epoch and ahead of every other session file when the
    autosave is written: the command returns the autosaved messages, as
    plain objects that carry the role the autosave gave them, and makes the
    autosaved model the default. *)
Theorem autosave_then_resume (messages history : History) (model : string) (w w' : World) :
  distinctNames w ->
  autoSave messages model w = (Returned tt, w') ->
  0 < ms (clock w (S (S (ticks w)))) ->
  (forall entry t, In entry (default [] (sessionDir w)) ->
                   isSessionFile entry = true ->
                   fst entry <> fileOf (autosaveName (clock w (ticks w))) ->
                   mtimeOf (snd entry) = Some t ->
                   t < ms (clock w (S (S (ticks w))))) ->
  exists w'',
    handleSlashCommand (Bare ResumeLatest) history w'
    = (Returned (map (fun m => Plain (mkStored (getMessageType m) (entryContent m)))
                     messages), w'')
    /\ defaultModel w'' = model
    /\ In model (modelStack w'').
Proof.
  intros Hnames Hsave Hpos Hahead.
  destruct (autoSave_success _ _ _ _ Hsave) as (_ & Hd' & _).
  set (file := fileOf (autosaveName (clock w (ticks w)))) in *.
  set (t := ms (clock w (S (S (ticks w))))) in *.
  set (record := mkRecord model
                   (map (fun m => mkStored (getMessageType m) (entryContent m)) messages)
                   (iso (clock w (S (ticks w))))) in *.
  set (d' := putEntry file (RegularFile (Some t) (SessionJson record))
               (default [] (sessionDir w))) in *.
  assert (Hnd : NoDup (map fst d')).
  { apply NoDup_putEntry. destruct (sessionDir w) as [d|] eqn:Hd;
      [now apply Hnames | constructor]. }
  assert (Hnew : In (file, RegularFile (Some t) (SessionJson record)) d')
    by apply assoc_In, assoc_putEntry.
  assert (Hsf : isSessionFile (file, RegularFile (Some t) (SessionJson record)) = true)
    by apply fileOf_is_session_file.
  assert (Hrun : resumeLatestSession w'
                 = (Returned (Some (SessionJson record)),
                    setTerminal (terminal w' ++ [ResumedFile (SESSION_DIR w' +:+ "/" +:+ file)]) w')).
  { rewrite (resumeLatestSession_run w' d' Hd' Hnd).
    pose proof (pick_over_directory d') as (_ & Hbound & Hfile).
    destruct (dated_file_is_picked d') as [n Hn].
    { intros Hnone.
      assert (Hin : In (file, RegularFile (Some t) (SessionJson record))
                       (List.filter datedSessionFile d')).
      { apply filter_In. split; [assumption|]. unfold datedSessionFile.
        rewrite Hsf. simpl. now apply Z.ltb_lt. }
      rewrite Hnone in Hin. destruct Hin. }
    rewrite Hn in Hfile |- *. destruct Hfile as (_ & text & Hin & Hpicked).
    specialize (Hbound _ t Hnew Hsf eq_refl).
    destruct (String.eqb_spec n file) as [->|Hne].
    - now rewrite (assoc_NoDup_In file _ d' Hnd Hnew).
    - exfalso. destruct (In_putEntry _ _ _ _ Hin) as [[= Heq _] | Hold]; [congruence|].
      specialize (Hahead _ _ Hold Hpicked Hne eq_refl). lia. }
  simpl. unfold bind at 1. rewrite Hrun. subst record. run. rewrite map_map.
  eexists. split; [reflexivity|]. simpl. split; [reflexivity|].
  destruct (memberOf model (modelStack w')) eqn:Hm; simpl.
  - now apply memberOf_In.
  - apply in_app_iff. right. now left.
Qed.

Lemma autosave_then_resume_witness :
  let w := worldWith (Some oldDirectory) true in
  let messages := [Inst (HumanMessage "hi"); Inst (AIMessage "hello")] in
  let w' := snd (autoSave messages "gpt-4" w) in
  autoSave messages "gpt-4" w = (Returned tt, w')
  /\ exists w'',
       handleSlashCommand (Bare ResumeLatest) [] w'
       = (Returned [Plain (mkStored "human" "hi"); Plain (mkStored "ai" "hello")], w'')
       /\ defaultModel w'' = "gpt-4"
       /\ In "gpt-4" (modelStack w'').
Proof.
  cbv zeta. split; [reflexivity|].
  apply (autosave_then_resume [Inst (HumanMessage "hi"); Inst (AIMessage "hello")] []
           "gpt-4" (worldWith (Some oldDirectory) true)
           (snd (autoSave [Inst (HumanMessage "hi"); Inst (AIMessage "hello")] "gpt-4"
                   (worldWith (Some oldDirectory) true)))).
  - intros d [= <-]. apply NoDup_cons. split; [intros H; inversion H | constructor].
  - reflexivity.
  - reflexivity.
  - intros entry t [<- | []] _ _ [= <-]. reflexivity.
Defined.

(** ** What a command leaves alone *)

Section Keeping.

Variable R : World -> World -> Prop.
Hypothesis R_refl : forall w, R w w.
Hypothesis R_trans : forall a b c, R a b -> R b c -> R a c.

Lemma keeps_ret {A : Type} (a : A) : keeps R (ret a).
Proof. intros w. apply R_refl. Qed.

Lemma keeps_throw {A : Type} (e : Error) : keeps R (@throw A e).
Proof. intros w. apply R_refl. Qed.

Lemma keeps_exit {A : Type} (code : Z) : keeps R (@exit A code).
Proof. intros w. apply R_refl. Qed.

Lemma keeps_gets {A : Type} (f : World -> A) : keeps R (gets f).
Proof. intros w. apply R_refl. Qed.

Lemma keeps_bind {A B : Type} (c : M A) (k : A -> M B) :
  keeps R c -> (forall a, keeps R (k a)) -> keeps R (bind c k).
Proof.
  intros Hc Hk w. unfold bind. specialize (Hc w).
  destruct (c w) as [[a|e|code] w1]; simpl in *; try assumption.
  eapply R_trans; [exact Hc | apply Hk].
Qed.

Lemma keeps_tryCatch {A : Type} (c : M A) (handler : Error -> M A) :
  keeps R c -> (forall e, keeps R (handler e)) -> keeps R (tryCatch c handler).
Proof.
  intros Hc Hh w. unfold tryCatch. specialize (Hc w).
  destruct (c w) as [[a|e|code] w1]; simpl in *; try assumption.
  eapply R_trans; [exact Hc | apply Hh].
Qed.

Lemma keeps_forEach {A S : Type} (body : S -> A -> M S) (xs : list A) (acc : S) :
  (forall acc x, keeps R (body acc x)) -> keeps R (forEach xs body acc).
Proof.
  intros Hbody. revert acc. induction xs as [|x rest IH]; intros acc; simpl.
  - apply keeps_ret.
  - apply keeps_bind; [apply Hbody | exact IH].
Qed.

Lemma keeps_mapM {A B : Type} (f : A -> M B) (xs : list A) :
  (forall x, keeps R (f x)) -> keeps R (mapM f xs).
Proof.
  intros Hf. induction xs as [|x rest IH]; simpl.
  - apply keeps_ret.
  - apply keeps_bind; [apply Hf|]. intros y.
    apply keeps_bind; [exact IH|]. intros ys. apply keeps_ret.
Qed.

End Keeping.

(** The steps that follow the structure of a computation. *)
Ltac keep_steps Hrefl Htrans :=
  repeat first
    [ progress cbv beta zeta
    | apply (keeps_bind _ Htrans); [|intros ?]
    | apply (keeps_tryCatch _ Htrans); [|intros ?]
    | apply (keeps_forEach _ Hrefl Htrans); intros ? ?
    | apply (keeps_mapM _ Hrefl Htrans); intros ?
    | apply (keeps_ret _ Hrefl)
    | apply (keeps_throw _ Hrefl)
    | apply (keeps_exit _ Hrefl)
    | apply (keeps_gets _ Hrefl)
    | match goal with
      | |- keeps _ (match ?x with _ => _ end) => destruct x
      end ].

(** The steps that read or write one thing: what each leaves alone shows
    on its definition. *)
Ltac keep_leaf :=
  intros ?; unfold ensureDir, writeTextFile, readTextFile, remove, readDir, statMtime,
    JSON_parse, storeTyped, print, newDate, addModel, modify, gets, ret, throw;
  repeat case_match; simpl; try split; reflexivity.

Lemma SameModels_refl (w : World) : SameModels w w.
Proof. now split. Qed.

Lemma SameModels_trans (a b c : World) : SameModels a b -> SameModels b c -> SameModels a c.
Proof. intros [? ?] [? ?]. split; congruence. Qed.

Lemma SameFiles_refl (w : World) : SameFiles w w.
Proof. reflexivity. Qed.

Lemma SameFiles_trans (a b c : World) : SameFiles a b -> SameFiles b c -> SameFiles a c.
Proof. unfold SameFiles. congruence. Qed.

Lemma Tracks_refl (w : World) : Tracks w w.
Proof. repeat split; auto. Qed.

Lemma Tracks_trans (a b c : World) : Tracks a b -> Tracks b c -> Tracks a c.
Proof.
  intros (Hin1 & Hnd1 & Hm1) (Hin2 & Hnd2 & Hm2). repeat split; auto.
  destruct Hm2 as [Heq | Hin]; [|now right].
  rewrite Heq. destruct Hm1 as [? | ?]; [now left | right; auto].
Qed.

Lemma SameModels_Tracks (w w' : World) : SameModels w w' -> Tracks w w'.
Proof. intros [Hm Hs]. unfold Tracks. rewrite Hs. auto. Qed.

Lemma keeps_weaken (R R' : World -> World -> Prop) {A : Type} (c : M A) :
  (forall w w', R w w' -> R' w w') -> keeps R c -> keeps R' c.
Proof. intros Himp Hc w. apply Himp, Hc. Qed.

Ltac keep_models := keep_steps SameModels_refl SameModels_trans; try keep_leaf.
Ltac keep_files := keep_steps SameFiles_refl SameFiles_trans; try keep_leaf.

Lemma autoSaveAndReturn_same_models (messages : History) :
  keeps SameModels (autoSaveAndReturn messages).
Proof. unfold autoSaveAndReturn, autoSave. keep_models. Qed.

Lemma listSessions_same_models : keeps SameModels listSessions.
Proof. unfold listSessions. keep_models. Qed.

Lemma saveSession_same_models (name : string) (messages : History) (model : string) :
  keeps SameModels (saveSession name messages model).
Proof. unfold saveSession. keep_models. Qed.

Lemma attachFiles_same_models (path : string) (messages : History) :
  keeps SameModels (attachFiles path messages).
Proof. unfold attachFiles, attachStep. keep_models. Qed.

Lemma resumeLatestSession_same_models : keeps SameModels resumeLatestSession.
Proof. unfold resumeLatestSession, resumeStep. keep_models. Qed.

Lemma loadSession_same_models (name : string) : keeps SameModels (loadSession name).
Proof. unfold loadSession. keep_models. Qed.

(** Adding a model to the stack and making it the default. *)
Lemma adopt_model_tracks {A : Type} (model : string) (a : A) :
  keeps Tracks (let* _ := addModel model in
                let* _ := modify (setDefaultModel model) in
                ret a).
Proof.
  intros w. unfold addModel. run.
  destruct (memberOf model (modelStack w)) eqn:Hm; simpl; repeat split; simpl; auto.
  - right. now apply memberOf_In.
  - intros m Hin. apply in_app_iff. now left.
  - intros Hnd. apply NoDup_app. repeat split; [assumption| |].
    + intros x Hx Hx'. apply list_elem_of_In in Hx.
      inversion Hx' as [|? ? ? Hnil]; subst; [|inversion Hnil].
      apply memberOf_In in Hx. congruence.
    + apply NoDup_cons. split; [intros H; inversion H | constructor].
  - right. apply in_app_iff. right. now left.
Qed.

Ltac tracks_from_models :=
  apply (keeps_weaken SameModels Tracks); [exact SameModels_Tracks|].

(** X15. No command removes a model from the model stack or puts one in
    twice.  Only Load with a name and ResumeLatest touch the stack and the
    default model at all, and when the default model has changed it is in
    the stack. *)
Theorem handleSlashCommand_models (ci : CommandInput) (messages : History) (w : World) :
  (forall m, In m (modelStack w) ->
             In m (modelStack (snd (handleSlashCommand ci messages w))))
  /\ (NoDup (modelStack w) -> NoDup (modelStack (snd (handleSlashCommand ci messages w))))
  /\ (defaultModel (snd (handleSlashCommand ci messages w)) = defaultModel w
      \/ In (defaultModel (snd (handleSlashCommand ci messages w)))
            (modelStack (snd (handleSlashCommand ci messages w))))
  /\ ((forall path, ci <> WithPath Load path) -> commandOf ci <> ResumeLatest ->
      defaultModel (snd (handleSlashCommand ci messages w)) = defaultModel w
      /\ modelStack (snd (handleSlashCommand ci messages w)) = modelStack w).
Proof.
  assert (Hstd : forall c, c <> ResumeLatest -> keeps SameModels (standardCommand c messages)).
  { intros c Hc. destruct c; try (now contradiction Hc); unfold standardCommand;
      keep_models;
      first [ apply autoSaveAndReturn_same_models | apply listSessions_same_models ]. }
  assert (Hsame : (forall path, ci <> WithPath Load path) -> commandOf ci <> ResumeLatest ->
            keeps SameModels (handleSlashCommand ci messages)).
  { intros Hload Hresume. destruct ci as [c | c path]; simpl in Hresume.
    - now apply Hstd.
    - destruct c;
        try (match goal with
             | |- keeps _ (handleSlashCommand (WithPath ?c _) _) =>
                 apply (Hstd c); discriminate
             end).
      + apply attachFiles_same_models.
      + simpl. keep_models; try apply saveSession_same_models.
      + now contradiction (Hload path).
      + simpl. unfold deleteSession. keep_models.
      + now contradiction Hresume. }
  assert (Hresume : keeps Tracks (standardCommand ResumeLatest messages)).
  { unfold standardCommand.
    apply (keeps_bind _ Tracks_trans);
      [tracks_from_models; apply resumeLatestSession_same_models|].
    intros [text|]; [destruct (textTruthy text)|].
    - apply (keeps_bind _ Tracks_trans);
        [tracks_from_models; destruct text; keep_models|].
      intros restored.
      apply (keeps_bind _ Tracks_trans); [tracks_from_models; keep_models|].
      intros _. apply adopt_model_tracks.
    - tracks_from_models. keep_models.
    - tracks_from_models. keep_models. }
  assert (Htracks : keeps Tracks (handleSlashCommand ci messages)).
  { destruct ci as [c | c path].
    - destruct c; try (tracks_from_models; apply Hsame; simpl; congruence). exact Hresume.
    - destruct c; try (tracks_from_models; apply Hsame; simpl; congruence).
      + simpl.
        apply (keeps_bind _ Tracks_trans);
          [tracks_from_models; apply loadSession_same_models|].
        intros loaded.
        apply (keeps_bind _ Tracks_trans); [tracks_from_models; keep_models|].
        intros _. apply adopt_model_tracks.
      + exact Hresume. }
  destruct (Htracks w) as (Hin & Hnd & Hm).
  split; [exact Hin|]. split; [exact Hnd|]. split; [exact Hm|].
  intros Hload Hres. exact (Hsame Hload Hres w).
Qed.

(** X16. Clear, ResumeLatest and Bye, Load with a name and File with a
    pattern never write to the session directory: after any of them it
    holds what it held, no autosave included. *)
Theorem reading_commands_write_nothing (ci : CommandInput) (messages : History) (w : World) :
  In (commandOf ci) [Clear; ResumeLatest; Bye]
  \/ (exists path, ci = WithPath Load path \/ ci = WithPath File path) ->
  sessionDir (snd (handleSlashCommand ci messages w)) = sessionDir w.
Proof.
  assert (Hstd : forall c, In c [Clear; ResumeLatest; Bye] ->
                           keeps SameFiles (standardCommand c messages)).
  { intros c [<- | [<- | [<- | []]]]; unfold standardCommand, resumeLatestSession, resumeStep;
      keep_files. }
  intros [Hc | [path [-> | ->]]].
  - destruct ci as [c | c path]; simpl in Hc.
    + now apply Hstd.
    + destruct Hc as [<- | [<- | [<- | []]]]; apply (Hstd _); simpl; tauto.
  - simpl. unfold loadSession. assert (H : keeps SameFiles
      (let* loaded := let* raw := readTextFile (fileOf path) in
                      let* data := JSON_parse raw in
                      ret (srModel data, map (fun m => Inst (revive m)) (srMessages data)) in
       let* _ := print (SessionLoaded path (fst loaded)) in
       let* _ := addModel (fst loaded) in
       let* _ := modify (setDefaultModel (fst loaded)) in
       ret (snd loaded))) by keep_files.
    apply H.
  - simpl. assert (H : keeps SameFiles (attachFiles path messages))
      by (unfold attachFiles, attachStep; keep_files).
    apply H.
Qed.

Lemma reading_commands_write_nothing_witness :
  In (commandOf (Bare ResumeLatest)) [Clear; ResumeLatest; Bye]
  /\ sessionDir (snd (handleSlashCommand (Bare ResumeLatest) []
                        (worldWith (Some tiedDirectory) true)))
     = Some tiedDirectory.
Proof.
  split; [simpl; tauto|].
  apply (reading_commands_write_nothing (Bare ResumeLatest) []
           (worldWith (Some tiedDirectory) true)).
  left. simpl. tauto.
Defined.

(** ** Attaching files ([/file]) *)

Lemma forEach_attachStep (items : list (string * ParseResult)) (acc : nat * string)
    (w : World) :
  exists w',
    forEach items attachStep acc w
    = (Returned ((fst acc + length (List.filter attachable items))%nat,
                 snd acc +:+ attachedContent (List.filter attachable items)), w')
    /\ sessionDir w' = sessionDir w /\ loader w' = loader w.
Proof.
  revert acc w. induction items as [|[filePath result] rest IH]; intros acc w.
  - simpl. exists w. rewrite Nat.add_0_r, append_nil_r. now destruct acc.
  - cbn [forEach List.filter].
    change (attachable (filePath, result))
      with (match result with
            | CodeBlock blockContent _ => Js.truthy blockContent
            | ParseFailure _ => false
            end).
    unfold bind at 1, attachStep at 1. cbn [fst snd].
    destruct result as [blockContent rendered | e].
    + destruct (Js.truthy blockContent) eqn:Ht.
      * unfold tryCatch, bind, print, modify, ret. cbn [fst snd].
        destruct (IH (S (fst acc), snd acc +:+ rendered +:+ newline +:+ newline)
                    (setTerminal (terminal w ++ [Attached filePath]) w))
          as (w' & -> & Hd & Hl).
        exists w'. split; [|split; assumption].
        cbn [fst snd length attachedContent].
        rewrite Nat.add_succ_r, !append_assoc. reflexivity.
      * unfold tryCatch, ret.
        destruct (IH acc w) as (w' & -> & Hd & Hl). exists w'. now repeat split.
    + unfold tryCatch, throw, bind, print, modify, ret.
      destruct (IH acc (setTerminal (terminal w ++ [FileError filePath e]) w))
        as (w' & -> & Hd & Hl).
      exists w'. now repeat split.
Qed.

(** X17. [/file] with a pattern always returns.  A file that cannot be read
    and a file without content are skipped without stopping the others; when
    the enumeration went through and at least one file is left, the history
    grows by one human message that counts those files and holds their
    blocks in order, trimmed; otherwise -- no such file, or an enumeration
    that failed, whatever was read before -- the history comes back as it
    was. *)
Theorem attachFiles_result (path : string) (messages : History) (w : World) :
  exists w',
    handleSlashCommand (WithPath File path) messages w
    = (Returned
         match failure (loader w path), List.filter attachable (found (loader w path)) with
         | None, (_ :: _) as files =>
             messages ++
             [Inst (HumanMessage ("Here are the file(s) I'm attaching ("
                                  +:+ pretty (length files) +:+ " file(s)):" +:+ newline
                                  +:+ Js.trim (attachedContent files)))]
         | _, _ => messages
         end, w')
    /\ sessionDir w' = sessionDir w.
Proof.
  simpl. unfold attachFiles. run.
  destruct (forEach_attachStep (found (loader w path)) (O, "")
              (setTerminal (terminal w ++ [Attaching path]) w)) as (w1 & -> & Hd & _).
  simpl.
  destruct (failure (loader w path)) as [e|].
  - eexists. split; [reflexivity | exact Hd].
  - destruct (List.filter attachable (found (loader w path))) as [|item files]; simpl.
    + eexists. split; [reflexivity | exact Hd].
    + eexists. split; [reflexivity | exact Hd].
Qed.

(** ** Loading a session ([/load]) *)


(** ** The model table ([model.ts]) *)

(** X19. The patterns of [modelMap] exclude one another: no identifier is
    matched by two rules of the table, so the order of the rules decides
    nothing. *)
Theorem modelMap_patterns_exclusive (identifier : string) (i j : nat)
    (rule1 rule2 : string * (Model.Params -> Model.CloseModel)) :
  Model.modelMap !! i = Some rule1 ->
  Model.modelMap !! j = Some rule2 ->
  Model.regexTest (fst rule1) identifier = true ->
  Model.regexTest (fst rule2) identifier = true ->
  i = j.
Proof.
  intros Hi Hj H1 H2.
  destruct i as [|[|[|[|[|[|i]]]]]]; try discriminate Hi;
    destruct j as [|[|[|[|[|[|j]]]]]]; try discriminate Hj;
    try reflexivity; exfalso;
    injection Hi as <-; injection Hj as <-;
    destruct identifier as [|c0 [|c1 rest]]; try discriminate;
    cbn [Model.regexTest Model.parseAtoms Model.matchHere Model.matchAtom
         fmap option_fmap option_map fst] in H1, H2;
    repeat match goal with
           | H : _ && _ = true |- _ => apply andb_true_iff in H as [? ?]
           | H : Ascii.eqb _ _ = true |- _ => apply Ascii.eqb_eq in H
           end;
    congruence.
Qed.

Lemma modelMap_patterns_exclusive_witness :
  Model.modelMap !! 1%nat = Some ("^o[0-9]", Model.createOpenAIOModelInstance)
  /\ Model.regexTest "^o[0-9]" "o3-mini" = true
  /\ forall j rule, Model.modelMap !! j = Some rule ->
                    Model.regexTest (fst rule) "o3-mini" = true -> j = 1%nat.
Proof.
  split; [reflexivity|]. split; [reflexivity|].
  intros j rule Hj Hrule. symmetry.
  exact (modelMap_patterns_exclusive "o3-mini" 1 j _ rule eq_refl Hj eq_refl Hrule).
Defined.

(** X20. The Azure strategy names the deployment after the identifier: what
    follows the prefix [azure-] when the identifier starts with it, the
    whole identifier otherwise -- as for "azure" itself, which the pattern
    of the rule matches too.  Keys, endpoint, temperature and the maximum of
    tokens go through as they are. *)
Theorem azure_deployment_name (params : Model.Params) :
  exists deployment,
    Model.createAzureOpenAIInstance params
    = Model.AzureChatOpenAI (Model.apiKey params) (Model.apiVersion params)
        (Model.endpoint params) deployment (Model.temperature params)
        (Some (Model.maxTokens params))
    /\ (Model.model params = "azure-" +:+ deployment
        \/ (Js.startsWith "azure-" (Model.model params) = false
            /\ deployment = Model.model params)).
Proof.
  unfold Model.createAzureOpenAIInstance.
  destruct (Js.startsWith "azure-" (Model.model params)) eqn:Hprefix.
  - eexists. split; [reflexivity|]. left. now apply startsWith_split.
  - eexists. split; [reflexivity|]. now right.
Qed.

(** X21. Every strategy of the table hands the temperature on unchanged.
    The maximum of tokens is handed on by every strategy but the one for
    the o-series, and the model identifier by every strategy but the Azure
    one. *)
Theorem strategies_forward_parameters (pattern : string)
    (strategy : Model.Params -> Model.CloseModel) (params : Model.Params) :
  In (pattern, strategy) Model.modelMap ->
  forwardedTemperature (strategy params) = Model.temperature params
  /\ (Model.forwardedMaxTokens (strategy params) = Some (Model.maxTokens params)
      \/ (pattern = "^o[0-9]" /\ Model.forwardedMaxTokens (strategy params) = None))
  /\ (forwardedModel (strategy params) = Model.model params \/ pattern = "^azure").
Proof.
  intros Hin. simpl in Hin.
  repeat (destruct Hin as [[= <- <-] | Hin]; [simpl; auto|]). destruct Hin.
Qed.

Lemma strategies_forward_parameters_witness :
  In ("^o[0-9]", Model.createOpenAIOModelInstance) Model.modelMap
  /\ Model.forwardedMaxTokens
       (Model.createOpenAIOModelInstance
          (Model.mkParams "o1-preview" (7 # 10) 1000 None None None)) = None.
Proof.
  assert (Hin : In ("^o[0-9]", Model.createOpenAIOModelInstance) Model.modelMap)
    by (simpl; tauto).
  split; [exact Hin|].
  destruct (strategies_forward_parameters "^o[0-9]" Model.createOpenAIOModelInstance
              (Model.mkParams "o1-preview" (7 # 10) 1000 None None None) Hin)
    as (_ & [Hmax | [_ Hmax]] & _); [discriminate Hmax | exact Hmax].
Defined.

(** ** The name of an autosave *)

Lemma replaceColonDot_clean (s : string) :
  hasChar ":" (Js.replaceColonDot s) = false
  /\ hasChar "." (Js.replaceColonDot s) = false
  /\ String.length (Js.replaceColonDot s) = String.length s.
Proof.
  induction s as [|c s (IH1 & IH2 & IH3)]; [now repeat split|].
  cbn [Js.replaceColonDot hasChar String.length]. rewrite IH1, IH2, IH3.
  destruct (Ascii.eqb_spec c ":") as [->|Hcolon]; [now repeat split|].
  destruct (Ascii.eqb_spec c ".") as [->|Hdot]; [now repeat split|].
  cbn [orb]. repeat split.
  - now destruct (Ascii.eqb_spec c ":").
  - now destruct (Ascii.eqb_spec c ".").
Qed.

Lemma hasChar_append (c : ascii) (a b : string) :
  hasChar c (a +:+ b) = hasChar c a || hasChar c b.
Proof.
  induction a as [|x a IH]; [reflexivity|].
  rewrite append_cons. cbn [hasChar]. now rewrite IH, orb_assoc.
Qed.

Lemma no_dot_no_json (s : string) : hasChar "." s = false -> occursIn ".json" s = false.
Proof.
  induction s as [|c s IH]; [reflexivity|].
  cbn [hasChar occursIn Js.startsWith]. intros [Hc Hs]%orb_false_iff.
  rewrite (IH Hs), orb_false_r.
  rewrite Ascii.eqb_sym, Hc. reflexivity.
Qed.

(** X22. The name of an autosave holds neither a colon nor a dot, whatever
    the clock prints, so the only dot of its file is the one of the
    extension; and after a successful autosave [listSessions] lists the
    session under exactly the name that [loadSession] takes. *)
Theorem autosave_is_listed (messages : History) (model : string) (w w' : World) :
  autoSave messages model w = (Returned tt, w') ->
  hasChar ":" (autosaveName (clock w (ticks w))) = false
  /\ hasChar "." (autosaveName (clock w (ticks w))) = false
  /\ exists names,
       listSessions w' = (Returned names, w')
       /\ In (autosaveName (clock w (ticks w))) names.
Proof.
  intros Hsave. destruct (autoSave_success _ _ _ _ Hsave) as (_ & Hd & _).
  destruct (replaceColonDot_clean (iso (clock w (ticks w)))) as (Hcolon & Hdot & _).
  assert (Hc : hasChar ":" (autosaveName (clock w (ticks w))) = false)
    by (unfold autosaveName; now rewrite hasChar_append, Hcolon).
  assert (Hp : hasChar "." (autosaveName (clock w (ticks w))) = false)
    by (unfold autosaveName; now rewrite hasChar_append, Hdot).
  split; [exact Hc|]. split; [exact Hp|].
  unfold listSessions, readDir. run. rewrite Hd.
  eexists. split; [reflexivity|].
  apply in_map_iff. eexists (fileOf (autosaveName (clock w (ticks w))), _). split.
  - cbn [fst]. unfold fileOf.
    change (?n +:+ ".json") with (n +:+ ".json" +:+ "").
    rewrite removeFirst_json by now apply no_dot_no_json.
    apply append_nil_r.
  - apply filter_In. split; [|apply fileOf_is_session_file].
    apply assoc_In, assoc_putEntry.
Qed.

Lemma autosave_is_listed_witness :
  let w := worldWith (Some []) true in
  let w' := snd (autoSave [Inst (HumanMessage "hi")] "gpt-4" w) in
  autoSave [Inst (HumanMessage "hi")] "gpt-4" w = (Returned tt, w')
  /\ listSessions w' = (Returned ["autosave-2023-11-14T22-13-20-000Z"], w')
  /\ hasChar ":" (autosaveName (clock w (ticks w))) = false.
Proof.
  cbv zeta. split; [reflexivity|]. split; [reflexivity|].
  exact (proj1 (autosave_is_listed [Inst (HumanMessage "hi")] "gpt-4"
                  (worldWith (Some []) true)
                  (snd (autoSave [Inst (HumanMessage "hi")] "gpt-4"
                          (worldWith (Some []) true)))
                  eq_refl)).
Defined.

(** ** How a command ends *)

Lemma staysIn_bind {A B : Type} (c : M A) (k : A -> M B) :
  staysIn c -> (forall a, staysIn (k a)) -> staysIn (bind c k).
Proof.
  intros Hc Hk w code. unfold bind. specialize (Hc w).
  destruct (c w) as [[a|e|code'] w1]; simpl in *.
  - apply Hk.
  - discriminate.
  - now contradiction (Hc code').
Qed.

Lemma staysIn_tryCatch {A : Type} (c : M A) (handler : Error -> M A) :
  staysIn c -> (forall e, staysIn (handler e)) -> staysIn (tryCatch c handler).
Proof.
  intros Hc Hh w code. unfold tryCatch. specialize (Hc w).
  destruct (c w) as [[a|e|code'] w1]; simpl in *.
  - discriminate.
  - apply Hh.
  - now contradiction (Hc code').
Qed.

Lemma staysIn_forEach {A S : Type} (body : S -> A -> M S) (xs : list A) (acc : S) :
  (forall acc x, staysIn (body acc x)) -> staysIn (forEach xs body acc).
Proof.
  intros Hbody. revert acc. induction xs as [|x rest IH]; intros acc; simpl.
  - intros w code. discriminate.
  - apply staysIn_bind; [apply Hbody | exact IH].
Qed.

Lemma staysIn_mapM {A B : Type} (f : A -> M B) (xs : list A) :
  (forall x, staysIn (f x)) -> staysIn (mapM f xs).
Proof.
  intros Hf. induction xs as [|x rest IH]; simpl.
  - intros w code. discriminate.
  - apply staysIn_bind; [apply Hf|]. intros y.
    apply staysIn_bind; [exact IH|]. intros ys w code. discriminate.
Qed.

Ltac stay :=
  repeat first
    [ progress cbv beta zeta
    | apply staysIn_bind; [|intros ?]
    | apply staysIn_tryCatch; [|intros ?]
    | apply staysIn_forEach; intros ? ?
    | apply staysIn_mapM; intros ?
    | match goal with
      | |- staysIn (match ?x with _ => _ end) => destruct x
      end ];
  try (intros ? ?; unfold ensureDir, writeTextFile, readTextFile, remove, readDir,
         statMtime, JSON_parse, storeTyped, print, newDate, addModel, modify, gets,
         ret, throw;
       repeat case_match; simpl; discriminate).

Lemma returns_tryCatch {A : Type} (c : M A) (handler : Error -> M A) :
  staysIn c -> (forall e, returns (handler e)) -> returns (tryCatch c handler).
Proof.
  intros Hc Hh w. unfold tryCatch. specialize (Hc w).
  destruct (c w) as [[a|e|code] w1]; simpl in *.
  - eauto.
  - apply Hh.
  - now contradiction (Hc code).
Qed.

Lemma resumeLatestSession_returns : returns resumeLatestSession.
Proof.
  apply returns_tryCatch.
  - unfold resumeStep. stay.
  - intros e w0. unfold bind, print, modify, ret. simpl. eauto.
Qed.

(** [/file] with a pattern and [/load] with a name never leave the process,
    and the first always returns. *)
Lemma attachFiles_returns (path : string) (messages : History) (w : World) :
  exists h w', attachFiles path messages w = (Returned h, w').
Proof.
  unfold attachFiles. run.
  destruct (forEach_attachStep (found (loader w path)) (O, "")
              (setTerminal (terminal w ++ [Attaching path]) w)) as (w1 & -> & _).
  simpl. destruct (failure (loader w path)); [eauto|].
  destruct (0 <? _); eauto.
Qed.

Lemma load_command_outcome (path : string) (messages : History) (w : World) :
  exists w', (exists h, handleSlashCommand (WithPath Load path) messages w = (Returned h, w'))
             \/ (exists e, handleSlashCommand (WithPath Load path) messages w = (Thrown e, w')).
Proof.
  simpl. unfold loadSession, readTextFile. run.
  destruct (sessionDir w) as [d|]; [|eauto].
  destruct (assoc (fileOf path) d) as [[mtime [r|raw]|]|]; simpl; eauto.
Qed.

(** X23. The two best-effort paths of the store always return, whatever
    the directory is like: [listSessions] and [resumeLatestSession] catch
    every failure of the enumeration, of [stat] and of the read, and
    neither of them writes to the session directory. *)
Theorem best_effort_paths_return (w : World) :
  (exists names, listSessions w = (Returned names, w))
  /\ (exists content, fst (resumeLatestSession w) = Returned content)
  /\ sessionDir (snd (resumeLatestSession w)) = sessionDir w.
Proof.
  split; [apply listSessions_returns|]. split.
  - apply resumeLatestSession_returns.
  - assert (H : keeps SameFiles resumeLatestSession)
      by (unfold resumeLatestSession, resumeStep; keep_files).
    apply H.
Qed.

(** X24. [/bye] is the only way out of the dispatcher, and it leaves at
    once with status 0 and the world untouched.  Of the other commands only
    Save, Load and Delete with a name and ResumeLatest can throw; Help,
    Clear, ModelStack, Sessions and File always return. *)
Theorem handleSlashCommand_ending (ci : CommandInput) (messages : History) (w : World) :
  (commandOf ci = Bye -> handleSlashCommand ci messages w = (Exited 0, w))
  /\ (forall code, fst (handleSlashCommand ci messages w) = Exited code ->
                   commandOf ci = Bye)
  /\ (forall e, fst (handleSlashCommand ci messages w) = Thrown e ->
                (exists path, ci = WithPath Save path \/ ci = WithPath Load path
                              \/ ci = WithPath Delete path)
                \/ commandOf ci = ResumeLatest).
Proof.
  assert (Hresume :
            (exists h w', standardCommand ResumeLatest messages w = (Returned h, w'))
            \/ (exists raw w',
                  standardCommand ResumeLatest messages w = (Thrown (SyntaxError raw), w'))).
  { destruct (resumeLatestSession_returns w) as [content Hc].
    destruct (standardCommand ResumeLatest messages w) as [o w'] eqn:Heq.
    unfold standardCommand in Heq. unfold bind at 1 in Heq.
    destruct (resumeLatestSession w) as [o1 w1]. simpl in Hc. subst o1.
    destruct content as [[r|raw]|]; run; try (injection Heq as <- <-; eauto).
    destruct (Js.truthy raw); injection Heq as <- <-; eauto. }
  assert (Htail : forall c, In c [Help; ModelStack; Sessions; File; Save; Load; Delete] ->
            exists w', standardCommand c messages w = (Returned messages, w'))
    by (intros c Hc; now apply standard_tail_returns).
  assert (Hstd : forall c o, fst (standardCommand c messages w) = o ->
            match o with
            | Exited _ => c = Bye
            | Thrown e => c = ResumeLatest /\ exists raw, e = SyntaxError raw
            | Returned _ => True
            end).
  { intros c o Ho. destruct c;
      try (match type of Ho with
           | fst (standardCommand ?c _ _) = _ =>
               destruct (Htail c ltac:(simpl; tauto)) as [w' Heq]
           end;
           rewrite Heq in Ho; simpl in Ho; now subst o).
    - subst o. exact I.
    - now subst o.
    - destruct Hresume as [(h & w' & Heq) | (raw & w' & Heq)];
        rewrite Heq in Ho; simpl in Ho; subst o; [exact I | eauto]. }
  split; [|split].
  - intros Hbye. destruct ci as [c | c path]; simpl in Hbye; now subst c.
  - intros code Hexit. destruct ci as [c | c path].
    + exact (Hstd c _ Hexit).
    + destruct c; try exact (Hstd _ _ Hexit); exfalso; simpl commandOf.
      * destruct (attachFiles_returns path messages w) as (h & w' & Heq).
        simpl in Hexit. rewrite Heq in Hexit. discriminate.
      * simpl in Hexit. revert Hexit. run.
        destruct (saveSession_outcome path messages (defaultModel w) w)
          as [w' [-> | [e ->]]]; discriminate.
      * destruct (load_command_outcome path messages w) as [w' [[h Heq] | [e Heq]]];
          rewrite Heq in Hexit; discriminate.
      * simpl in Hexit. revert Hexit. run.
        destruct (deleteSession_outcome path w) as [w' [-> | [e ->]]]; discriminate.
  - intros e Hthrown. destruct ci as [c | c path].
    + right. exact (proj1 (Hstd c _ Hthrown)).
    + destruct c; try (right; exact (proj1 (Hstd _ _ Hthrown))); simpl commandOf.
      * exfalso. destruct (attachFiles_returns path messages w) as (h & w' & Heq).
        simpl in Hthrown. rewrite Heq in Hthrown. discriminate.
      * left. eauto.
      * left. eauto.
      * left. eauto.
Qed.
